(** * Orbit diagnostics plots: a shallow embedding of [orbit/diagnostics/plot.py]

    The four plotting helpers of [plot.py] are embedded as computations in a
    small state-and-exception monad.  The state is the canvas: the list of
    calls made on matplotlib so far.  A Python exception is a value of
    [exn]; the canvas reached when the exception is raised is kept, so
    that what was drawn before a failure can be read off.

    Data frames are column-oriented: a row count (the length of the frame's
    index) and a finite map from column names to columns.  The plotting code
    never computes with the cells except to compare timestamps and to group
    rows by equal keys, so cells are exact integers: timestamps are ticks
    since the epoch, measurements sit on a fixed-point grid, identifiers are
    codes.  Bar positions, which the code obtains by adding the bar width to
    integers, are rationals. *)

From Stdlib Require Import ZArith QArith Lia.
From stdpp Require Import base option list strings gmap pretty.

Local Open Scope Z_scope.

(** ** Python values the plots handle *)

Abbreviation Series := (list Z).

Record DataFrame := {
  index : nat;                      (* len(df.index): the number of rows *)
  columns : gmap string Series
}.


Inductive exn :=
| ValueError (msg : string)
| KeyError (key : string)
| IndexError
| ZeroDivisionError
| BackendError.                     (* raised inside matplotlib *)

Definition empty_input_error : exn :=
  ValueError "No prediction data or training response to plot.".
Definition ordering_error : exn :=
  ValueError "Prediction df dates is not ordered.".
Definition shape_error : exn :=
  ValueError "prediction_percentiles has to be None or a list with length=2.".

(** The members of [PredictionPaletteClassic] the plots name.  The colour
    codes behind them are not in the sources and play no part here. *)
Inductive PredPal :=
| ACTUAL_OBS | PREDICTION_LINE | HOLDOUT_VERTICAL_LINE | TEST_OBS
| PREDICTION_INTERVAL.

(** A bar colour: entry [i] of the seaborn palette
    [color_palette("colorblind", n_colors)]. *)
Inductive color :=
| Colorblind (n_colors i : nat).

(** An axes object is named by its cell in the grid [plt.subplots] made. *)
Abbreviation axes := (Z * Z)%type.

Inductive title :=
| Text (s : string)
| SplitTitle (split : Z) (metric_name : string) (metric_val : Q).

(** What a plot function hands back to its caller. *)
Inductive handle :=
| PyNone
| Axes (ax : axes)
| AxesArray (axs : list axes)
| AxesGrid (rows : list (list axes)).

(** ** The canvas *)

Inductive draw :=
| Subplots (nrows ncols : Z) (figsize : Z * Z)
| Plot (ax : axes) (x y : Series) (c : PredPal) (label : option string)
| Scatter (ax : axes) (x y : Series) (c : PredPal) (label : string)
| Axvline (ax : axes) (x : option Z) (c : PredPal)
| FillBetween (ax : axes) (x y1 y2 : Series) (c : PredPal)
| SetTitle (ax : axes) (t : title) (fontsize : option Z)
| AxLegend (ax : axes)
| Suptitle (t : string) (fontsize : Z)
| TightLayout
| RcFigsize (figsize : Z * Z)
| Bar (x : list Q) (height : Series) (c : color) (width : Q) (label : Z)
| Xlabel (s : string)
| Xticks (ticks : list Q) (labels : Series)
| Legend
| Title (s : string) (fontsize : Z)
| Savefig (path : string)
| ShowFig
| CloseFig.

Abbreviation canvas := (list draw).

Inductive result (A : Type) :=
| Raise (e : exn)
| Return (a : A).
Arguments Raise {A} e.
Arguments Return {A} a.

Definition plt (A : Type) : Type := canvas -> canvas * result A.

Definition run {A} (m : plt A) (cv : canvas) : canvas * result A := m cv.

#[global] Instance plt_ret : MRet plt := fun A a cv => (cv, Return a).
#[global] Instance plt_bind : MBind plt := fun A B f m cv =>
  match m cv with
  | (cv', Return a) => f a cv'
  | (cv', Raise e) => (cv', Raise e)
  end.

#[global] Instance plt_fmap : FMap plt := fun A B f m cv =>
  match m cv with
  | (cv', Return a) => (cv', Return (f a))
  | (cv', Raise e) => (cv', Raise e)
  end.

Definition raise {A} (e : exn) : plt A := fun cv => (cv, Raise e).
Definition emit (d : draw) : plt unit := fun cv => (cv ++ [d], Return tt).
Definition when (b : bool) (m : plt unit) : plt unit :=
  if b then m else mret tt.

(** ** pandas and Python helpers *)

(** [df[col]] *)
Definition getitem (df : DataFrame) (col : string) : plt Series :=
  match columns df !! col with
  | Some s => mret s
  | None => raise (KeyError col)
  end.

(** [col in df.columns] *)
Definition has_column (df : DataFrame) (col : string) : bool :=
  bool_decide (is_Some (columns df !! col)).

(** [pd.to_datetime]: timestamps are already ticks. *)
Definition to_datetime (s : Series) : Series := s.

(** [s.values[-1]] *)
Definition values_last (s : Series) : plt Z :=
  match last s with
  | Some t => mret t
  | None => raise IndexError
  end.

(** [Series.unique()]: distinct values in order of first appearance. *)
Fixpoint unique (s : Series) : Series :=
  match s with
  | [] => []
  | x :: s' => x :: filter (fun y => y ≠ x) (unique s')
  end.

(** [s[mask]]: the cells of [s] on the rows where [mask] holds. *)
Fixpoint boolean_mask (mask : list bool) (s : Series) : Series :=
  match mask, s with
  | b :: mask', x :: s' =>
      if b then x :: boolean_mask mask' s' else boolean_mask mask' s'
  | _, _ => []
  end.

(** ['{}_{}'.format(name, p)] for an integer percentile. *)
Definition confid_col (name : string) (p : Z) : string :=
  name +:+ "_" +:+ pretty p.

(** Truthiness of the optional display arguments. *)
Definition figsize_or (dflt : Z * Z) (figsize : option (Z * Z)) : Z * Z :=
  default dflt figsize.
Definition fontsize_or (dflt : Z) (fontsize : option Z) : Z :=
  match fontsize with
  | Some f => if f =? 0 then dflt else f
  | None => dflt
  end.
Definition truthy_path (path : option string) : option string :=
  match path with
  | Some "" => None
  | p => p
  end.

(** Modelled from the spec: [is_empty_dataframe] of [orbit.utils.general],
    absent from the sources; the spec's empty-input errors are raised when
    a required table has zero rows. *)
Definition is_empty_dataframe (df : DataFrame) : bool :=
  bool_decide (index df = 0%nat).

(** Modelled from the spec: [is_ordered_datetime] of [orbit.utils.general],
    absent from the sources; the spec's ordering errors are raised when the
    timestamps are not strictly increasing. *)
Fixpoint is_ordered_datetime (s : Series) : bool :=
  match s with
  | [] => true
  | x :: s' =>
      match s' with
      | [] => true
      | y :: _ => (x <? y) && is_ordered_datetime s'
      end
  end.

(** Modelled from the spec: [orbit_style_decorator] of [orbit.utils.plot],
    absent from the sources; it applies the library's visual style around
    the call and hands the wrapped function's result through.  The style is
    an attribute of how calls paint and is not recorded on the canvas. *)
Definition orbit_style_decorator {A} (func : plt A) : plt A := func.

(** Modelled from the spec: the members of [PredictionKeys]
    ([orbit.constants.constants]) the plots use, absent from the sources; the
    spec names the default components trend, seasonality and regression and
    derives the bound columns from the name "prediction". *)
Definition PREDICTION : string := "prediction".
Definition TREND : string := "trend".
Definition SEASONALITY : string := "seasonality".
Definition REGRESSION : string := "regression".

(** [math.ceil(a / b)] for a divisor other than zero. *)
Definition ceil_div (a b : Z) : Z := - ((- a) / b).

(** [for x in l: body(x)] *)
Fixpoint for_each {A} (l : list A) (body : A -> plt unit) : plt unit :=
  match l with
  | [] => mret tt
  | x :: l' => body x;; for_each l' body
  end.

(** [enumerate(l)] *)
Definition enumerate {A} (l : list A) : list (Z * A) :=
  zip (seqZ 0 (Z.of_nat (length l))) l.

(** [l[i]] on a Python list *)
Definition list_getitem {A} (l : list A) (i : nat) : plt A :=
  match l !! i with
  | Some x => mret x
  | None => raise IndexError
  end.

(** The tail every plot function ends with: save when a path is given, then
    show or close the figure. *)
Definition finish (path : option string) (is_visible : bool) : plt unit :=
  match truthy_path path with
  | Some p => emit (Savefig p)
  | None => mret tt
  end;;
  if is_visible then emit ShowFig else emit CloseFig.

Section Plots.

(** Whether the installed matplotlib hands back an empty array of axes when
    asked for a grid without rows or without columns.  The sources do not
    fix the release; releases differ on this point. *)
Variable empty_grid_ok : bool.

(** The array of axes of an [nrows] by [ncols] grid. *)
Definition grid (nrows ncols : Z) : list (list axes) :=
  (fun r => (fun c => (r, c)) <$> seqZ 0 ncols) <$> seqZ 0 nrows.

(** [axes.flatten()] *)
Definition flatten (axs : list (list axes)) : list axes := mjoin axs.

(** [plt.subplots(nrows, ncols, figsize=figsize, squeeze=False)] *)
Definition subplots (nrows ncols : Z) (figsize : Z * Z) : plt (list (list axes)) :=
  if (0 <? nrows) && (0 <? ncols)
     || empty_grid_ok && (0 <=? nrows) && (0 <=? ncols)
  then emit (Subplots nrows ncols figsize);; mret (grid nrows ncols)
  else raise BackendError.

(** ** [plot_predicted_data] *)

Definition plot_predicted_data
    (training_actual_df predicted_df : DataFrame)
    (date_col actual_col pred_col : string)
    (prediction_percentiles : option (list Z)) (title : string)
    (test_actual_df : option DataFrame) (is_visible : bool)
    (figsize : option (Z * Z)) (path : option string) (fontsize : option Z)
    (line_plot : bool) : plt handle :=
  orbit_style_decorator (
    if is_empty_dataframe training_actual_df || is_empty_dataframe predicted_df
    then raise empty_input_error
    else
    pred_dates ← getitem predicted_df date_col;
    if negb (is_ordered_datetime pred_dates) then raise ordering_error
    else
    let _pred_percentiles := default [5; 95] prediction_percentiles in
    if negb (length _pred_percentiles =? 2)%nat then raise shape_error
    else
    let confid_cols :=
      [confid_col "prediction" (_pred_percentiles !!! 0%nat);
       confid_col "prediction" (_pred_percentiles !!! 1%nat)] in
    let plot_confid := forallb (has_column predicted_df) confid_cols in
    let figsize := figsize_or (16, 8) figsize in
    let fontsize := fontsize_or 16 fontsize in
    train_dates ← to_datetime <$> getitem training_actual_df date_col;
    let pred_dates := to_datetime pred_dates in
    _ ← subplots 1 1 figsize;
    let ax : axes := (0, 0) in
    train_actual ← getitem training_actual_df actual_col;
    (if line_plot
     then emit (Plot ax train_dates train_actual ACTUAL_OBS (Some "train response"))
     else emit (Scatter ax train_dates train_actual ACTUAL_OBS "train response"));;
    pred_vals ← getitem predicted_df pred_col;
    emit (Plot ax pred_dates pred_vals PREDICTION_LINE (Some PREDICTION));;
    (* vertical line separate training and prediction *)
    train_last ← values_last train_dates;
    pred_last ← values_last pred_dates;
    when (train_last <? pred_last)
      (emit (Axvline ax (Some train_last) HOLDOUT_VERTICAL_LINE));;
    match test_actual_df with
    | Some test_df =>
        test_dates ← to_datetime <$> getitem test_df date_col;
        test_actual ← getitem test_df actual_col;
        if line_plot
        then emit (Plot ax test_dates test_actual TEST_OBS (Some "train response"))
        else emit (Scatter ax test_dates test_actual TEST_OBS "test response")
    | None => mret tt
    end;;
    (* prediction intervals *)
    when plot_confid
      (lower ← getitem predicted_df (confid_cols !!! 0%nat);
       upper ← getitem predicted_df (confid_cols !!! 1%nat);
       emit (FillBetween ax pred_dates lower upper PREDICTION_INTERVAL));;
    emit (SetTitle ax (Text title) (Some fontsize));;
    emit (AxLegend ax);;
    finish path is_visible;;
    mret (Axes ax)).

(** ** [plot_predicted_components] *)

Definition plot_predicted_components
    (predicted_df : DataFrame) (date_col : string)
    (prediction_percentiles : option (list Z))
    (plot_components : option (list string)) (title : string)
    (figsize : option (Z * Z)) (path : option string) (fontsize : option Z)
    (is_visible : bool) : plt handle :=
  orbit_style_decorator (
    dates ← to_datetime <$> getitem predicted_df date_col;
    let plot_components := default [TREND; SEASONALITY; REGRESSION] plot_components in
    let plot_components := filter (fun p => has_column predicted_df p) plot_components in
    let nrows := Z.of_nat (length plot_components) in
    let figsize := figsize_or (16, 8) figsize in
    let fontsize := fontsize_or 16 fontsize in
    let _pred_percentiles := default [5; 95] prediction_percentiles in
    if negb (length _pred_percentiles =? 2)%nat then raise shape_error
    else
    axs ← flatten <$> subplots nrows 1 figsize;
    for_each (zip axs plot_components) (fun '(ax, comp) =>
      y ← getitem predicted_df comp;
      emit (Plot ax dates y PREDICTION_INTERVAL None);;
      let confid_cols :=
        [confid_col comp (_pred_percentiles !!! 0%nat);
         confid_col comp (_pred_percentiles !!! 1%nat)] in
      when (forallb (has_column predicted_df) confid_cols)
        (lower ← getitem predicted_df (confid_cols !!! 0%nat);
         upper ← getitem predicted_df (confid_cols !!! 1%nat);
         emit (FillBetween ax dates lower upper PREDICTION_INTERVAL));;
      emit (SetTitle ax (Text comp) (Some fontsize)));;
    emit (Suptitle title fontsize);;
    emit TightLayout;;
    finish path is_visible;;
    mret (AxesArray axs)).

(** ** [metric_horizon_barplot] *)

(** [sns.color_palette("colorblind", n)] *)
Definition color_palette (n : nat) : list color := Colorblind n <$> seq 0 n.

(** The list [r] of bar positions: [r[0]] counts the bars of the first
    model, each further entry shifts the one before by the bar width. *)
Definition bar_positions (n_bars0 : nat) (bar_width : Q) (n_models : nat)
    : list (list Q) :=
  foldl (fun r idx => r ++ [(fun x => (x + bar_width)%Q) <$> (r !!! idx)])
        [inject_Z <$> seqZ 0 (Z.of_nat n_bars0)]
        (seq 0 (n_models - 1)).

Definition metric_horizon_barplot
    (df : DataFrame) (model_col pred_horizon_col metric_col : string)
    (bar_width : Q) (path : option string) (figsize : option (Z * Z))
    (fontsize : option Z) (is_visible : bool) : plt handle :=
  orbit_style_decorator (
    let figsize := figsize_or (20, 6) figsize in
    let fontsize := fontsize_or 10 fontsize in
    emit (RcFigsize figsize);;
    models ← unique <$> getitem df model_col;
    metric_horizons ← unique <$> getitem df pred_horizon_col;
    let n_models := length models in
    let palette := color_palette n_models in
    (* set height of bar *)
    bars ← mapM (fun m =>
               model_s ← getitem df model_col;
               metric_s ← getitem df metric_col;
               mret (boolean_mask ((fun x => bool_decide (x = m)) <$> model_s) metric_s))
             models;
    (* set position of bar on X axis *)
    bars0 ← list_getitem bars 0;
    let r := bar_positions (length bars0) bar_width n_models in
    (* make the plot *)
    for_each (seq 0 n_models) (fun idx =>
      r_idx ← list_getitem r idx;
      bars_idx ← list_getitem bars idx;
      palette_idx ← list_getitem palette idx;
      models_idx ← list_getitem models idx;
      emit (Bar r_idx bars_idx palette_idx bar_width models_idx));;
    (* add xticks on the middle of the group bars *)
    emit (Xlabel "predict-horizon");;
    emit (Xticks ((fun x => (inject_Z x + bar_width)%Q)
                    <$> seqZ 0 (Z.of_nat (length bars0)))
                 metric_horizons);;
    (* create legend & show graphic *)
    emit Legend;;
    emit (Title ("Model Comparison with " +:+ metric_col) fontsize);;
    finish path is_visible;;
    mret PyNone).

(** ** [plot_bt_predictions] *)

(** The rows of [bt_pred_df], the output of [BackTester.fit_predict()]; the
    function reads these five columns by their fixed names. *)
Record BtRow := {
  split_key : Z;
  date : Z;
  actuals : Z;
  prediction : Z;
  training_data : bool
}.

(** [x[~x['training_data']]] *)
Definition held_out (x : list BtRow) : list BtRow :=
  filter (fun r => training_data r = false) x.

(** [df[df['split_key'] == k]] *)
Definition of_split (k : Z) (df : list BtRow) : list BtRow :=
  filter (fun r => split_key r = k) df.

(** [groupby('split_key').apply(...)]: the metric of each split over its
    held-out rows, indexed by split key. *)
Definition metric_values (metrics : Series -> Series -> Q) (df : list BtRow)
    : gmap Z Q :=
  list_to_map
    ((fun k => let x := of_split k df in
               (k, metrics (actuals <$> held_out x) (prediction <$> held_out x)))
       <$> unique (split_key <$> df)).

(** [Series.min()]; [None] stands for [NaT], the minimum of no timestamps. *)
Definition series_min (s : Series) : option Z :=
  match s with
  | [] => None
  | x :: s' => Some (foldr Z.min x s')
  end.

(** Indexing one dimension of a numpy array of extent [n]. *)
Definition np_index (n : nat) (i : Z) : option nat :=
  if (0 <=? i) && (i <? Z.of_nat n) then Some (Z.to_nat i)
  else if (- Z.of_nat n <=? i) && (i <? 0) then Some (Z.to_nat (i + Z.of_nat n))
  else None.

(** [axes[row_idx, col_idx]] *)
Definition axes_getitem (axs : list (list axes)) (row_idx col_idx : Z) : plt axes :=
  match np_index (length axs) row_idx ≫= (axs !!.) with
  | Some row =>
      match np_index (length row) col_idx ≫= (row !!.) with
      | Some ax => mret ax
      | None => raise IndexError
      end
  | None => raise IndexError
  end.

Definition plot_bt_predictions
    (bt_pred_df : list BtRow) (metrics : Series -> Series -> Q)
    (metrics_name : string) (split_key_list : option (list Z)) (ncol : Z)
    (figsize : option (Z * Z)) (include_vline : bool) (title : string)
    (fontsize : Z) (path : option string) (is_visible : bool) : plt handle :=
  orbit_style_decorator (
    let figsize := default (16, 8) figsize in
    let metric_vals := metric_values metrics bt_pred_df in
    let split_key_list_ :=
      default (unique (split_key <$> bt_pred_df)) split_key_list in
    let num_splits := Z.of_nat (length split_key_list_) in
    if ncol =? 0 then raise ZeroDivisionError
    else
    let nrow := ceil_div num_splits ncol in
    axs ← subplots nrow ncol figsize;
    for_each (enumerate split_key_list_) (fun '(idx, key) =>
      let row_idx := idx `div` ncol in
      let col_idx := idx `mod` ncol in
      let tmp := of_split key bt_pred_df in
      ax ← axes_getitem axs row_idx col_idx;
      emit (Plot ax (date <$> tmp) (prediction <$> tmp) PREDICTION_LINE None);;
      ax ← axes_getitem axs row_idx col_idx;
      emit (Scatter ax (date <$> tmp) (actuals <$> tmp) ACTUAL_OBS "actual");;
      ax ← axes_getitem axs row_idx col_idx;
      match metric_vals !! key with
      | Some val =>
          emit (SetTitle ax (SplitTitle key metrics_name val) None)
      | None => raise (KeyError (pretty key))
      end;;
      when include_vline
        (let cutoff_date := series_min (date <$> held_out tmp) in
         ax ← axes_getitem axs row_idx col_idx;
         emit (Axvline ax cutoff_date HOLDOUT_VERTICAL_LINE)));;
    emit (Suptitle title fontsize);;
    emit TightLayout;;
    finish path is_visible;;
    mret (AxesGrid axs)).

End Plots.

(** * Specification vocabulary *)

(** Timestamps strictly increasing along the rows. *)
Definition strictly_increasing (s : Series) : Prop :=
  forall (i j : nat) (x y : Z),
    (i < j)%nat -> s !! i = Some x -> s !! j = Some y -> x < y.

(** Which exceptions a computation can raise. *)
Definition raises_only {A} (P : exn -> Prop) (m : plt A) : Prop :=
  forall cv cv' e, run m cv = (cv', Raise e) -> P e.

(** Weakest precondition over the outcome and the canvas reached. *)
Definition wp {A} (m : plt A) (Q : result A -> canvas -> Prop) (cv : canvas) : Prop :=
  Q (run m cv).2 (run m cv).1.

(** What [finish] adds to the canvas. *)
Definition finish_draws (path : option string) (vis : bool) : canvas :=
  match truthy_path path with Some p => [Savefig p] | None => [] end
  ++ [if vis then ShowFig else CloseFig].

(** ** Reading the canvas *)

(** The filled bands: timestamps, lower edge, upper edge. *)
Definition band_of (d : draw) : option (Series * Series * Series) :=
  match d with
  | FillBetween _ x y1 y2 _ => Some (x, y1, y2)
  | _ => None
  end.
Definition bands (cv : canvas) : list (Series * Series * Series) :=
  omap band_of cv.

(** A band whose lower edge stays at or below its upper edge on every row. *)
Definition band_ordered (b : Series * Series * Series) : Prop :=
  Forall2 Z.le b.1.2 b.2.

(** The panel titles, each with the axes it was set on. *)
Definition panel_title_of (d : draw) : option (axes * title) :=
  match d with
  | SetTitle ax t _ => Some (ax, t)
  | _ => None
  end.
Definition panel_titles (cv : canvas) : list (axes * title) :=
  omap panel_title_of cv.

(** The grids requested from [plt.subplots]: rows, columns. *)
Definition grid_of (d : draw) : option (Z * Z) :=
  match d with
  | Subplots nrows ncols _ => Some (nrows, ncols)
  | _ => None
  end.
Definition grids (cv : canvas) : list (Z * Z) := omap grid_of cv.

(** The axes a call paints on, if it paints on one. *)
Definition axes_of (d : draw) : option axes :=
  match d with
  | Plot ax _ _ _ _ | Scatter ax _ _ _ _ | Axvline ax _ _
  | FillBetween ax _ _ _ _ | SetTitle ax _ _ | AxLegend ax => Some ax
  | _ => None
  end.
Definition painted_axes (cv : canvas) : list axes := omap axes_of cv.

(** The bar calls: positions, heights, colour, label. *)
Definition bar_of (d : draw) : option (list Q * Series * color * Z) :=
  match d with
  | Bar x height c _ label => Some (x, height, c, label)
  | _ => None
  end.
Definition bar_calls (cv : canvas) : list (list Q * Series * color * Z) :=
  omap bar_of cv.

(** ** Valid inputs *)

(** A percentile pair is left to its default or has two entries. *)
Definition percentiles_ok (prediction_percentiles : option (list Z)) : Prop :=
  forall l, prediction_percentiles = Some l -> length l = 2%nat.

(** The percentile pair in force. *)
Definition pair_in_force (prediction_percentiles : option (list Z)) : list Z :=
  default [5; 95] prediction_percentiles.


(** The requested components that are columns of the table, in the order
    they were requested. *)
Definition present_components (df : DataFrame)
    (plot_components : option (list string)) : list string :=
  filter (fun c => has_column df c)
         (default [TREND; SEASONALITY; REGRESSION] plot_components).

(** The axes of a grid of [n] rows and one column, top to bottom. *)
Definition axes_column (n : nat) : list axes :=
  (fun i => (i, 0)) <$> seqZ 0 (Z.of_nat n).

(** The line plots, each with the axes it was drawn on and its values. *)
Definition line_of (d : draw) : option (axes * Series) :=
  match d with
  | Plot ax _ y _ _ => Some (ax, y)
  | _ => None
  end.
Definition line_plots (cv : canvas) : list (axes * Series) := omap line_of cv.

(** What the component plot draws for one component on one axes. *)
Definition component_panel (df : DataFrame) (p : list Z) (dates : Series)
    (fontsize : Z) (panel : axes * string) : canvas :=
  let '(ax, comp) := panel in
  match columns df !! comp with
  | Some y =>
      [Plot ax dates y PREDICTION_INTERVAL None]
      ++ match columns df !! confid_col comp (p !!! 0%nat),
               columns df !! confid_col comp (p !!! 1%nat) with
         | Some lower, Some upper =>
             [FillBetween ax dates lower upper PREDICTION_INTERVAL]
         | _, _ => []
         end
      ++ [SetTitle ax (Text comp) (Some fontsize)]
  | None => []
  end.

(** The splits the backtest plot shows: the requested ones or, by default,
    every split of the table in order of first appearance. *)
Definition selected_splits (bt_pred_df : list BtRow)
    (split_key_list : option (list Z)) : list Z :=
  default (unique (split_key <$> bt_pred_df)) split_key_list.

(** The metric shown for one split: over its held-out rows. *)
Definition split_metric (metrics : Series -> Series -> Q)
    (bt_pred_df : list BtRow) (key : Z) : Q :=
  metrics (actuals <$> held_out (of_split key bt_pred_df))
          (prediction <$> held_out (of_split key bt_pred_df)).

(** The cell of a grid with [ncol] columns reached in row-major order by the
    panel of position [idx]. *)
Definition row_major_cell (ncol idx : Z) : axes := (idx `div` ncol, idx `mod` ncol).

(** What the backtest plot draws for the split at position [idx]. *)
Definition bt_panel (bt_pred_df : list BtRow) (metrics : Series -> Series -> Q)
    (metrics_name : string) (ncol : Z) (include_vline : bool)
    (panel : Z * Z) : canvas :=
  let '(idx, key) := panel in
  let ax := row_major_cell ncol idx in
  let tmp := of_split key bt_pred_df in
  [Plot ax (date <$> tmp) (prediction <$> tmp) PREDICTION_LINE None;
   Scatter ax (date <$> tmp) (actuals <$> tmp) ACTUAL_OBS "actual";
   SetTitle ax (SplitTitle key metrics_name (split_metric metrics bt_pred_df key))
            None]
  ++ (if include_vline
      then [Axvline ax (series_min (date <$> held_out tmp)) HOLDOUT_VERTICAL_LINE]
      else []).

(** The bar heights of one model: the metric cells of its rows, in row order. *)
Definition model_bars (model_s metric_s : Series) (m : Z) : Series :=
  boolean_mask ((fun x => bool_decide (x = m)) <$> model_s) metric_s.

(** The bar positions of the model of index [k]: the positions [0, 1, ...] of
    the first model's bars, shifted [k] times by the bar width. *)
Definition shifted_positions (n_bars0 : nat) (bar_width : Q) (k : nat) : list Q :=
  Nat.iter k (fmap (fun x => (x + bar_width)%Q))
           (inject_Z <$> seqZ 0 (Z.of_nat n_bars0)).

(** The bar call made for the model of index [k]. *)
Definition bar_call (model_s metric_s : Series) (bar_width : Q) (k : nat)
    (m : Z) : draw :=
  let models := unique model_s in
  let n_bars0 := length (model_bars model_s metric_s (default 0 (head models))) in
  Bar (shifted_positions n_bars0 bar_width k) (model_bars model_s metric_s m)
      (Colorblind (length models) k) bar_width m.

(** How many rows of the table belong to a model. *)
Definition rows_of_model (model_s : Series) (m : Z) : nat :=
  length (filter (fun x => x = m) model_s).

(** ** Sample tables *)

Definition frame (n : nat) (cols : list (string * Series)) : DataFrame :=
  {| index := n; columns := list_to_map cols |}.

(** Three training observations. *)
Definition sample_training : DataFrame :=
  frame 3 [("ds", [1; 2; 3]); ("y", [10; 12; 11])].

(** The same observations with the first two rows swapped. *)
Definition sample_training_unordered : DataFrame :=
  frame 3 [("ds", [2; 1; 3]); ("y", [12; 10; 11])].

(** Four predictions with their 5th and 95th percentiles. *)
Definition sample_predicted : DataFrame :=
  frame 4 [("ds", [2; 3; 4; 5]); ("prediction", [12; 11; 13; 14]);
           ("prediction_5", [10; 9; 10; 10]); ("prediction_95", [14; 13; 16; 18])].

(** The same predictions with two rows out of order. *)
Definition sample_predicted_unordered : DataFrame :=
  frame 4 [("ds", [2; 4; 3; 5]); ("prediction", [12; 13; 11; 14])].

(** A decomposition with a trend and a seasonality but no regression. *)
Definition sample_components : DataFrame :=
  frame 3 [("ds", [1; 2; 3]); ("trend", [10; 11; 12]); ("seasonality", [1; -1; 1])].


(** Two models scored on three horizons. *)
Definition sample_metrics : DataFrame :=
  frame 6 [("model", [1; 1; 1; 2; 2; 2]); ("pred_horizon", [1; 2; 3; 1; 2; 3]);
           ("smape", [5; 6; 7; 8; 9; 10])].

(** Three backtest splits of one training and one held-out row each. *)
Definition sample_backtest : list BtRow :=
  [ {| split_key := 0; date := 1; actuals := 10; prediction := 10; training_data := true |};
    {| split_key := 0; date := 2; actuals := 12; prediction := 11; training_data := false |};
    {| split_key := 1; date := 2; actuals := 12; prediction := 12; training_data := true |};
    {| split_key := 1; date := 3; actuals := 11; prediction := 13; training_data := false |};
    {| split_key := 2; date := 3; actuals := 11; prediction := 11; training_data := true |};
    {| split_key := 2; date := 4; actuals := 13; prediction := 12; training_data := false |} ].

(** A stand-in for a metric: the number of held-out rows scored. *)
Definition sample_metric (actual predicted : Series) : Q :=
  inject_Z (Z.of_nat (length actual)).


(** Inputs on which the backtest plot is meant to be called: a positive
    column count and at least one selected split, every selected split being
    a split of the table with, when the cutoff line is asked for, a held-out
    row. *)
Definition valid_backtest_input (bt_pred_df : list BtRow)
    (split_key_list : option (list Z)) (ncol : Z) (include_vline : bool) : Prop :=
  0 < ncol /\
  selected_splits bt_pred_df split_key_list <> [] /\
  (forall k, k ∈ selected_splits bt_pred_df split_key_list ->
             k ∈ split_key <$> bt_pred_df) /\
  (include_vline = true ->
   forall k, k ∈ selected_splits bt_pred_df split_key_list ->
             held_out (of_split k bt_pred_df) <> []).


(** ** Further readings of the canvas *)

(** The calls that save, show or close the figure. *)
Definition output_of (d : draw) : option draw :=
  match d with
  | Savefig _ | ShowFig | CloseFig => Some d
  | _ => None
  end.
Definition outputs (cv : canvas) : list draw := omap output_of cv.

(** A call hands the figure over exactly when it returns: what it has saved,
    shown or closed is the tail of the function when it returns, and nothing
    when it raises. *)
Definition released_on_return {A} (m : plt A) (path : option string)
    (is_visible : bool) (cv : canvas) : Prop :=
  outputs (run m cv).1 =
  outputs cv ++ match (run m cv).2 with
                | Return _ => finish_draws path is_visible
                | Raise _ => []
                end.

(** The vertical lines: axes and position. *)
Definition vline_of (d : draw) : option (axes * option Z) :=
  match d with
  | Axvline ax x _ => Some (ax, x)
  | _ => None
  end.
Definition vlines (cv : canvas) : list (axes * option Z) := omap vline_of cv.

(** The legend labels of the series drawn, in drawing order. *)
Definition label_of (d : draw) : option string :=
  match d with
  | Plot _ _ _ _ (Some l) => Some l
  | Scatter _ _ _ _ l => Some l
  | _ => None
  end.
Definition series_labels (cv : canvas) : list string := omap label_of cv.

(** The tick calls: positions and labels. *)
Definition xticks_of (d : draw) : option (list Q * Series) :=
  match d with
  | Xticks ticks labels => Some (ticks, labels)
  | _ => None
  end.
Definition xticks (cv : canvas) : list (list Q * Series) := omap xticks_of cv.

(** The band of one component panel, when both its bound columns exist. *)
Definition component_band (df : DataFrame) (p : list Z) (dates : Series)
    (panel : axes * string) : option (Series * Series * Series) :=
  match columns df !! confid_col panel.2 (p !!! 0%nat),
        columns df !! confid_col panel.2 (p !!! 1%nat) with
  | Some lower, Some upper => Some (dates, lower, upper)
  | _, _ => None
  end.

(** What the backtest plot has drawn of a panel when the title's metric
    turns out to be missing. *)
Definition bt_panel_untitled (bt_pred_df : list BtRow) (ncol : Z)
    (panel : Z * Z) : canvas :=
  let '(idx, key) := panel in
  let ax := row_major_cell ncol idx in
  let tmp := of_split key bt_pred_df in
  [Plot ax (date <$> tmp) (prediction <$> tmp) PREDICTION_LINE None;
   Scatter ax (date <$> tmp) (actuals <$> tmp) ACTUAL_OBS "actual"].

(** The cutoff line of one backtest panel: its cell and the earliest
    held-out timestamp of its split. *)
Definition bt_cutoff (bt_pred_df : list BtRow) (ncol : Z) (panel : Z * Z)
    : axes * option Z :=
  (row_major_cell ncol panel.1,
   series_min (date <$> held_out (of_split panel.2 bt_pred_df))).

(** The title of one backtest panel. *)
Definition bt_title (bt_pred_df : list BtRow) (metrics : Series -> Series -> Q)
    (metrics_name : string) (ncol : Z) (panel : Z * Z) : axes * title :=
  (row_major_cell ncol panel.1,
   SplitTitle panel.2 metrics_name (split_metric metrics bt_pred_df panel.2)).

(** The sample backtest with other training rows: the held-out rows are the
    same. *)
Definition sample_backtest_retrained : list BtRow :=
  [ {| split_key := 0; date := 2; actuals := 12; prediction := 11; training_data := false |};
    {| split_key := 1; date := 1; actuals := 9; prediction := 8; training_data := true |};
    {| split_key := 1; date := 2; actuals := 7; prediction := 7; training_data := true |};
    {| split_key := 1; date := 3; actuals := 11; prediction := 13; training_data := false |};
    {| split_key := 2; date := 4; actuals := 13; prediction := 12; training_data := false |} ].


Definition sample_metrics_empty : DataFrame :=
  frame 0 [("model", []); ("pred_horizon", [])].

(** Three test observations. *)
Definition sample_test : DataFrame :=
  frame 3 [("ds", [4; 5; 6]); ("y", [13; 15; 14])].

(** Components with bounds for the trend only. *)
Definition sample_components_bounded : DataFrame :=
  frame 3 [("ds", [1; 2; 3]); ("trend", [10; 11; 12]);
           ("trend_5", [9; 10; 11]); ("trend_95", [11; 12; 13]);
           ("seasonality", [1; -1; 1]); ("seasonality_5", [0; -2; 0])].

(** * Properties *)

(** ** Running computations *)

Section Running.
Context {A B : Type}.
Implicit Types (m : plt A) (f : A -> plt B) (cv : canvas).

Lemma run_ret (a : A) cv : run (mret a) cv = (cv, Return a).
Proof. reflexivity. Qed.

Lemma run_raise (e : exn) cv : run (raise e : plt A) cv = (cv, Raise e).
Proof. reflexivity. Qed.

Lemma run_bind m f cv :
  run (m ≫= f) cv =
  match run m cv with
  | (cv', Return a) => run (f a) cv'
  | (cv', Raise e) => (cv', Raise e)
  end.
Proof. reflexivity. Qed.

Lemma run_fmap (h : A -> B) m cv :
  run (h <$> m) cv =
  match run m cv with
  | (cv', Return a) => (cv', Return (h a))
  | (cv', Raise e) => (cv', Raise e)
  end.
Proof. reflexivity. Qed.

End Running.

Lemma run_emit d cv : run (emit d) cv = (cv ++ [d], Return tt).
Proof. reflexivity. Qed.

Lemma run_getitem_Some df col s cv :
  columns df !! col = Some s -> run (getitem df col) cv = (cv, Return s).
Proof. intros H. unfold getitem. by rewrite H. Qed.

Lemma run_getitem_None df col cv :
  columns df !! col = None -> run (getitem df col) cv = (cv, Raise (KeyError col)).
Proof. intros H. unfold getitem. by rewrite H. Qed.

Lemma has_column_true df col :
  has_column df col = true <-> exists s, columns df !! col = Some s.
Proof. unfold has_column. rewrite bool_decide_eq_true. reflexivity. Qed.

Lemma has_column_false df col :
  has_column df col = false <-> columns df !! col = None.
Proof.
  unfold has_column. rewrite bool_decide_eq_false, <- eq_None_not_Some.
  reflexivity.
Qed.

(** ** Which exceptions a computation can raise *)

Lemma raises_only_ret {A} (P : exn -> Prop) (a : A) : raises_only P (mret a).
Proof. intros cv cv' e. rewrite run_ret. discriminate. Qed.

Lemma raises_only_raise {A} (P : exn -> Prop) (e : exn) :
  P e -> raises_only P (raise e : plt A).
Proof. intros He cv cv' e'. rewrite run_raise. congruence. Qed.

Lemma raises_only_bind {A B} (P : exn -> Prop) (m : plt A) (f : A -> plt B) :
  raises_only P m -> (forall a, raises_only P (f a)) -> raises_only P (m ≫= f).
Proof.
  intros Hm Hf cv cv' e. rewrite run_bind.
  destruct (run m cv) as [cv1 [e1|a]] eqn:Hrun.
  - intros [= <- <-]. by eapply Hm.
  - apply Hf.
Qed.

Lemma raises_only_fmap {A B} (P : exn -> Prop) (h : A -> B) (m : plt A) :
  raises_only P m -> raises_only P (h <$> m).
Proof.
  intros Hm cv cv' e. rewrite run_fmap.
  destruct (run m cv) as [cv1 [e1|a]] eqn:Hrun; [|discriminate].
  intros [= <- <-]. by eapply Hm.
Qed.

Lemma raises_only_for_each {A} (P : exn -> Prop) (l : list A) (body : A -> plt unit) :
  (forall x, raises_only P (body x)) -> raises_only P (for_each l body).
Proof.
  intros Hbody. induction l as [|x l IH]; simpl.
  - apply raises_only_ret.
  - apply raises_only_bind; [apply Hbody | intros _; apply IH].
Qed.

Lemma raises_only_list_getitem {A} (P : exn -> Prop) (l : list A) i :
  P IndexError -> raises_only P (list_getitem l i).
Proof.
  intros HP. unfold list_getitem. destruct (l !! i).
  - apply raises_only_ret.
  - by apply raises_only_raise.
Qed.

Section RaisesOnlyPrimitives.
Context (P : exn -> Prop).

Lemma raises_only_emit d : raises_only P (emit d).
Proof. intros cv cv' e. rewrite run_emit. discriminate. Qed.

Lemma raises_only_when b m : raises_only P m -> raises_only P (when b m).
Proof. destruct b; simpl; [done | intros _; apply raises_only_ret]. Qed.

Lemma raises_only_getitem df col :
  P (KeyError col) -> raises_only P (getitem df col).
Proof.
  intros HP. unfold getitem. destruct (columns df !! col).
  - apply raises_only_ret.
  - by apply raises_only_raise.
Qed.

Lemma raises_only_values_last s : P IndexError -> raises_only P (values_last s).
Proof.
  intros HP. unfold values_last. destruct (last s).
  - apply raises_only_ret.
  - by apply raises_only_raise.
Qed.

Lemma raises_only_finish path vis : raises_only P (finish path vis).
Proof.
  unfold finish. apply raises_only_bind.
  - destruct (truthy_path path); [apply raises_only_emit | apply raises_only_ret].
  - intros _. destruct vis; apply raises_only_emit.
Qed.

Lemma raises_only_subplots g nrows ncols figsize :
  P BackendError -> raises_only P (subplots g nrows ncols figsize).
Proof.
  intros HP. unfold subplots. case_match.
  - apply raises_only_bind; [apply raises_only_emit | intros _; apply raises_only_ret].
  - by apply raises_only_raise.
Qed.

Lemma raises_only_axes_getitem axs r c :
  P IndexError -> raises_only P (axes_getitem axs r c).
Proof.
  intros HP. unfold axes_getitem.
  repeat case_match; (apply raises_only_ret || by apply raises_only_raise).
Qed.

End RaisesOnlyPrimitives.

(** One step of the analysis of which exceptions a plot body can raise. *)
Ltac raises_step :=
  lazymatch goal with
  | |- raises_only _ (orbit_style_decorator _) => unfold orbit_style_decorator
  | |- raises_only _ (mbind _ _) => apply raises_only_bind; [| intros ?]
  | |- raises_only _ (fmap _ _) => apply raises_only_fmap
  | |- raises_only _ (mret _) => apply raises_only_ret
  | |- raises_only _ (raise _) => apply raises_only_raise
  | |- raises_only _ (emit _) => apply raises_only_emit
  | |- raises_only _ (when _ _) => apply raises_only_when
  | |- raises_only _ (getitem _ _) => apply raises_only_getitem
  | |- raises_only _ (list_getitem _ _) => apply raises_only_list_getitem
  | |- raises_only _ (values_last _) => apply raises_only_values_last
  | |- raises_only _ (finish _ _) => apply raises_only_finish
  | |- raises_only _ (subplots _ _ _ _) => apply raises_only_subplots
  | |- raises_only _ (axes_getitem _ _ _) => apply raises_only_axes_getitem
  | |- raises_only _ (for_each _ _) => apply raises_only_for_each; intros ?
  | |- raises_only _ (if ?b then _ else _) => destruct b
  | |- raises_only _ (match ?o with _ => _ end) => destruct o
  | |- raises_only _ (let _ := _ in _) => cbv zeta
  end.

Ltac raises_tac := repeat raises_step; try discriminate; try done.

(** ** Strictly increasing timestamps *)

Lemma strictly_increasing_cons x s :
  strictly_increasing (x :: s) <->
  (forall y, y ∈ s -> x < y) /\ strictly_increasing s.
Proof.
  split.
  - intros H. split.
    + intros y [j Hj]%list_elem_of_lookup. apply (H 0%nat (S j)); [lia|done..].
    + intros i j a b Hij Ha Hb. apply (H (S i) (S j)); [lia|done..].
  - intros [Hx Hs] i j a b Hij Ha Hb.
    destruct j as [|j]; [lia|]. simpl in Hb.
    destruct i as [|i]; simpl in Ha.
    + injection Ha as <-. apply Hx. by eapply list_elem_of_lookup_2.
    + apply (Hs i j); [lia|done..].
Qed.

Lemma is_ordered_datetime_spec s :
  is_ordered_datetime s = true <-> strictly_increasing s.
Proof.
  induction s as [|x s IH].
  - split; [|done]. intros _ i j a b _ Ha. by destruct i.
  - rewrite strictly_increasing_cons. destruct s as [|y s].
    + simpl. split; [|done]. intros _. split.
      * intros y Hy. by apply elem_of_nil in Hy.
      * intros i j a b _ Ha. by destruct i.
    + change (is_ordered_datetime (x :: y :: s))
        with ((x <? y) && is_ordered_datetime (y :: s)).
      rewrite andb_true_iff, IH, Z.ltb_lt. split.
      * intros [Hxy Hs]. split; [|done].
        intros z [->|Hz]%elem_of_cons; [done|].
        apply strictly_increasing_cons in Hs as [Hy _].
        specialize (Hy z Hz). lia.
      * intros [Hx Hs]. split; [|done]. apply Hx. left.
Qed.

Lemma is_ordered_datetime_false s :
  is_ordered_datetime s = false <-> ~ strictly_increasing s.
Proof. rewrite <- is_ordered_datetime_spec. by destruct (is_ordered_datetime s). Qed.

Lemma is_empty_dataframe_true df :
  is_empty_dataframe df = true <-> index df = 0%nat.
Proof. unfold is_empty_dataframe. apply bool_decide_eq_true. Qed.

Lemma raise_inv {A} (P : exn -> Prop) (m : plt A) cv e :
  raises_only P m -> (run m cv).2 = Raise e -> P e.
Proof.
  intros Hm. destruct (run m cv) as [cv' r] eqn:Hrun. simpl. intros ->.
  by eapply Hm.
Qed.

(** ** Weakest preconditions over outcome and canvas *)

Lemma wp_run {A} (m : plt A) Q cv cv' r :
  wp m Q cv -> run m cv = (cv', r) -> Q r cv'.
Proof. unfold wp. intros H E. by rewrite E in H. Qed.

Lemma wp_ret {A} (a : A) Q cv : Q (Return a) cv -> wp (mret a) Q cv.
Proof. done. Qed.

Lemma wp_raise {A} e (Q : result A -> canvas -> Prop) cv :
  Q (Raise e) cv -> wp (raise e) Q cv.
Proof. done. Qed.

Lemma wp_emit d Q cv : Q (Return tt) (cv ++ [d]) -> wp (emit d) Q cv.
Proof. done. Qed.

Lemma wp_bind {A B} (m : plt A) (f : A -> plt B) Q cv :
  wp m (fun r cv1 => match r with
                     | Return a => wp (f a) Q cv1
                     | Raise e => Q (Raise e) cv1
                     end) cv ->
  wp (m ≫= f) Q cv.
Proof. unfold wp. rewrite run_bind. by destruct (run m cv) as [cv1 [e|a]]. Qed.

Lemma wp_fmap {A B} (h : A -> B) (m : plt A) Q cv :
  wp m (fun r cv1 => match r with
                     | Return a => Q (Return (h a)) cv1
                     | Raise e => Q (Raise e) cv1
                     end) cv ->
  wp (h <$> m) Q cv.
Proof. unfold wp. rewrite run_fmap. by destruct (run m cv) as [cv1 [e|a]]. Qed.

Lemma wp_getitem df col Q cv :
  (forall s, columns df !! col = Some s -> Q (Return s) cv) ->
  (columns df !! col = None -> Q (Raise (KeyError col)) cv) ->
  wp (getitem df col) Q cv.
Proof. unfold wp, getitem. destruct (columns df !! col); simpl; auto. Qed.

Lemma wp_values_last s Q cv :
  (forall t, last s = Some t -> Q (Return t) cv) ->
  (s = [] -> Q (Raise IndexError) cv) ->
  wp (values_last s) Q cv.
Proof.
  unfold wp, values_last. destruct (last s) eqn:Hlast; simpl; [auto|].
  intros _ H. apply H. by apply last_None.
Qed.

Lemma wp_when b m Q cv :
  (b = true -> wp m Q cv) -> (b = false -> Q (Return tt) cv) ->
  wp (when b m) Q cv.
Proof. destruct b; simpl; intros H1 H2; [by apply H1 | by apply H2]. Qed.

Lemma wp_finish path vis Q cv :
  Q (Return tt) (cv ++ finish_draws path vis) -> wp (finish path vis) Q cv.
Proof.
  unfold wp, finish, finish_draws. rewrite run_bind.
  destruct (truthy_path path), vis; simpl;
    rewrite ?run_emit, ?run_ret, <- ?app_assoc, ?app_nil_r; simpl; done.
Qed.

Lemma wp_subplots g nrows ncols figsize Q cv :
  (0 < nrows /\ 0 < ncols \/ g = true /\ 0 <= nrows /\ 0 <= ncols ->
   Q (Return (grid nrows ncols)) (cv ++ [Subplots nrows ncols figsize])) ->
  (~ (0 < nrows /\ 0 < ncols) -> g = true -> ~ (0 <= nrows /\ 0 <= ncols) ->
   Q (Raise BackendError) cv) ->
  (~ (0 < nrows /\ 0 < ncols) -> g = false -> Q (Raise BackendError) cv) ->
  wp (subplots g nrows ncols figsize) Q cv.
Proof.
  intros Hok Herr1 Herr2. unfold wp, subplots.
  destruct ((0 <? nrows) && (0 <? ncols)
            || g && (0 <=? nrows) && (0 <=? ncols)) eqn:Hb; simpl.
  - apply Hok. destruct g; simpl in Hb; lia.
  - destruct g; simpl in Hb; [apply Herr1 | apply Herr2]; (done || lia).
Qed.

(** One step of symbolic execution of a plot body. *)
Ltac wp_step :=
  lazymatch goal with
  | |- wp (orbit_style_decorator _) _ _ => unfold orbit_style_decorator
  | |- wp (mbind _ _) _ _ => apply wp_bind
  | |- wp (fmap _ _) _ _ => apply wp_fmap
  | |- wp (mret _) _ _ => apply wp_ret
  | |- wp (raise _) _ _ => apply wp_raise
  | |- wp (emit _) _ _ => apply wp_emit
  | |- wp (finish _ _) _ _ => apply wp_finish
  | |- wp (getitem _ _) _ _ => apply wp_getitem; [intros ? ? | intros ?]
  | |- wp (values_last _) _ _ => apply wp_values_last; [intros ? ? | intros ?]
  | |- wp (when _ _) _ _ => apply wp_when; intros ?
  | |- wp (subplots _ _ _ _) _ _ => apply wp_subplots; intros
  | |- wp (if ?b then _ else _) _ _ => destruct b eqn:?
  | |- wp (match ?o with _ => _ end) _ _ => destruct o eqn:?
  | |- wp (let _ := _ in _) _ _ => cbv zeta
  end; cbv beta iota.

(** ** Reading the canvas piecewise *)

Lemma bands_app cv1 cv2 : bands (cv1 ++ cv2) = bands cv1 ++ bands cv2.
Proof. apply omap_app. Qed.

Lemma panel_titles_app cv1 cv2 :
  panel_titles (cv1 ++ cv2) = panel_titles cv1 ++ panel_titles cv2.
Proof. apply omap_app. Qed.




Lemma bands_finish path vis : bands (finish_draws path vis) = [].
Proof. unfold finish_draws. by destruct (truthy_path path), vis. Qed.





(** Symbolic execution along the branches the hypotheses leave open. *)
Ltac wp_valid :=
  repeat (wp_step; simplify_eq;
          try (exfalso; solve [congruence | lia | done])).

Lemma forallb_has_column_pair df (a b : string) :
  forallb (has_column df) [a; b] = true ->
  is_Some (columns df !! ([a; b] !!! 0%nat)) /\
  is_Some (columns df !! ([a; b] !!! 1%nat)).
Proof.
  simpl. rewrite andb_true_r, andb_true_iff, !has_column_true.
  intros [[s1 H1] [s2 H2]]. split; [by exists s1 | by exists s2].
Qed.

Lemma run_subplots_ok g nrows ncols figsize cv :
  0 < nrows /\ 0 < ncols \/ g = true /\ 0 <= nrows /\ 0 <= ncols ->
  run (subplots g nrows ncols figsize) cv =
    (cv ++ [Subplots nrows ncols figsize], Return (grid nrows ncols)).
Proof.
  intros H. unfold subplots.
  destruct ((0 <? nrows) && (0 <? ncols)
            || g && (0 <=? nrows) && (0 <=? ncols)) eqn:Hb; [done|].
  exfalso. destruct g; simpl in Hb; lia.
Qed.

Lemma run_subplots_rejected g nrows ncols figsize cv :
  ~ (0 < nrows /\ 0 < ncols) -> (g = true -> ~ (0 <= nrows /\ 0 <= ncols)) ->
  run (subplots g nrows ncols figsize) cv = (cv, Raise BackendError).
Proof.
  intros H1 H2. unfold subplots.
  destruct ((0 <? nrows) && (0 <? ncols)
            || g && (0 <=? nrows) && (0 <=? ncols)) eqn:Hb; [|done].
  exfalso. destruct g; simpl in Hb; [apply H2; [done|] |]; lia.
Qed.

Lemma run_finish path vis cv :
  run (finish path vis) cv = (cv ++ finish_draws path vis, Return tt).
Proof.
  unfold finish, finish_draws. rewrite run_bind.
  destruct (truthy_path path), vis; simpl;
    rewrite ?run_emit, ?run_ret, <- ?app_assoc, ?app_nil_r; simpl; done.
Qed.

(** Running a straight line of canvas calls. *)
Ltac run_steps :=
  repeat (rewrite ?run_bind, ?run_emit, ?run_finish, ?run_ret; cbv beta iota).

Lemma line_plots_app cv1 cv2 :
  line_plots (cv1 ++ cv2) = line_plots cv1 ++ line_plots cv2.
Proof. apply omap_app. Qed.


Lemma mjoin_cons {A} (l : list A) (ls : list (list A)) :
  mjoin (l :: ls) = l ++ mjoin ls.
Proof. reflexivity. Qed.

Lemma omap_mjoin {A B} (f : A -> option B) (ls : list (list A)) :
  omap f (mjoin ls) = mjoin (omap f <$> ls).
Proof.
  induction ls as [|l ls IH]; [done|].
  by rewrite fmap_cons, !mjoin_cons, omap_app, IH.
Qed.

(** ** Loops and further readings *)

Lemma wp_for_each {A} (l : list A) (body : A -> plt unit)
    (I : canvas -> Prop) (Q : result unit -> canvas -> Prop) cv :
  I cv ->
  (forall x cv1, x ∈ l -> I cv1 ->
     wp (body x) (fun r cv2 => match r with
                               | Return _ => I cv2
                               | Raise e => Q (Raise e) cv2
                               end) cv1) ->
  (forall cv1, I cv1 -> Q (Return tt) cv1) ->
  wp (for_each l body) Q cv.
Proof.
  revert cv. induction l as [|x l IH]; intros cv Hinv Hbody Hend; simpl.
  - by apply wp_ret, Hend.
  - apply wp_bind. unfold wp.
    pose proof (Hbody x cv ltac:(left) Hinv) as Hx. unfold wp in Hx.
    destruct (run (body x) cv) as [cv1 [e|[]]]; simpl in *; [done|].
    apply IH; [done| |done].
    intros y cv2 Hy. apply Hbody. by right.
Qed.

Lemma wp_list_getitem {A} (l : list A) i (Q : result A -> canvas -> Prop) cv :
  (forall x, l !! i = Some x -> Q (Return x) cv) ->
  (l !! i = None -> Q (Raise IndexError) cv) ->
  wp (list_getitem l i) Q cv.
Proof. unfold wp, list_getitem. destruct (l !! i); simpl; auto. Qed.

Lemma wp_axes_getitem axs r c (Q : result axes -> canvas -> Prop) cv :
  (forall ax, Q (Return ax) cv) -> Q (Raise IndexError) cv ->
  wp (axes_getitem axs r c) Q cv.
Proof.
  intros Hok Herr. unfold wp, axes_getitem. repeat case_match; simpl; auto.
Qed.

Lemma outputs_app cv1 cv2 : outputs (cv1 ++ cv2) = outputs cv1 ++ outputs cv2.
Proof. apply omap_app. Qed.

Lemma outputs_finish path vis : outputs (finish_draws path vis) = finish_draws path vis.
Proof. unfold finish_draws. by destruct (truthy_path path), vis. Qed.

Lemma vlines_app cv1 cv2 : vlines (cv1 ++ cv2) = vlines cv1 ++ vlines cv2.
Proof. apply omap_app. Qed.

Lemma vlines_finish path vis : vlines (finish_draws path vis) = [].
Proof. unfold finish_draws. by destruct (truthy_path path), vis. Qed.

Lemma series_labels_app cv1 cv2 :
  series_labels (cv1 ++ cv2) = series_labels cv1 ++ series_labels cv2.
Proof. apply omap_app. Qed.

Lemma series_labels_finish path vis : series_labels (finish_draws path vis) = [].
Proof. unfold finish_draws. by destruct (truthy_path path), vis. Qed.

Lemma xticks_app cv1 cv2 : xticks (cv1 ++ cv2) = xticks cv1 ++ xticks cv2.
Proof. apply omap_app. Qed.

Lemma xticks_finish path vis : xticks (finish_draws path vis) = [].
Proof. unfold finish_draws. by destruct (truthy_path path), vis. Qed.

Lemma surjective_pairing_eq {A B} (p : A * B) (a : A) (b : B) :
  p.1 = a /\ p.2 = b -> p = (a, b).
Proof. destruct p as [a' b']. simpl. intros [Ha Hb]. by subst. Qed.

Lemma omap_imap_None {A B C} (f : B -> option C) (g : nat -> A -> B) (l : list A) :
  (forall k x, f (g k x) = None) -> omap f (imap g l) = [].
Proof.
  revert g. induction l as [|x l IH]; intros g Hfg; [done|].
  rewrite imap_cons. cbn [omap list_omap]. rewrite Hfg. apply IH.
  intros k y. apply Hfg.
Qed.

Lemma wp_mapM {A B} (f : A -> plt B) (l : list A) (I : canvas -> Prop)
    (Q : result (list B) -> canvas -> Prop) cv :
  I cv ->
  (forall x cv1, x ∈ l -> I cv1 ->
     wp (f x) (fun r cv2 => match r with
                            | Return _ => I cv2
                            | Raise e => Q (Raise e) cv2
                            end) cv1) ->
  (forall ys cv1, I cv1 -> Q (Return ys) cv1) ->
  wp (mapM f l) Q cv.
Proof.
  revert Q cv. induction l as [|x l IH]; intros Q cv Hinv Hbody Hend.
  - by apply wp_ret, Hend.
  - change (mapM f (x :: l)) with (y ← f x; k ← mapM f l; mret (y :: k)).
    apply wp_bind. unfold wp.
    pose proof (Hbody x cv ltac:(left) Hinv) as Hx. unfold wp in Hx.
    destruct (run (f x) cv) as [cv1 [e|y]]; simpl in *; [done|].
    apply wp_bind, IH; [done| |].
    + intros z cv2 Hz Hcv2.
      pose proof (Hbody z cv2 ltac:(by right) Hcv2) as Hz'. unfold wp in *.
      by destruct (run (f z) cv2) as [cv3 [e|w]].
    + intros ys cv2 Hcv2. by apply wp_ret, Hend.
Qed.

Ltac wp_more :=
  lazymatch goal with
  | |- wp (list_getitem _ _) _ _ =>
      apply wp_list_getitem; [intros ? ? | intros ?]; cbv beta iota
  | |- wp (axes_getitem _ _ _) _ _ =>
      apply wp_axes_getitem; [intros ? | ]; cbv beta iota
  | _ => wp_step
  end.

Ltac outputs_tac :=
  rewrite ?outputs_app, ?outputs_finish;
  cbn [outputs omap list_omap output_of];
  rewrite ?app_nil_r; try done; try congruence.

Section PredictedData.
Variable empty_grid_ok : bool.
Variables (training_actual_df predicted_df : DataFrame).
Variables (date_col actual_col pred_col : string).
Variables (prediction_percentiles : option (list Z)) (title : string).
Variables (test_actual_df : option DataFrame) (is_visible : bool).
Variables (figsize : option (Z * Z)) (path : option string).
Variables (fontsize : option Z) (line_plot : bool).

Local Abbreviation call :=
  (plot_predicted_data empty_grid_ok training_actual_df predicted_df date_col
    actual_col pred_col prediction_percentiles title test_actual_df is_visible
    figsize path fontsize line_plot).

(** C3.  [plot_predicted_data] raises the empty-input error exactly when the
    training table or the prediction table has zero rows, and when it does
    the canvas is the one it was given: nothing has been drawn. *)
Theorem empty_input_error_iff_zero_rows cv :
  ((run call cv).2 = Raise empty_input_error <->
   index training_actual_df = 0%nat \/ index predicted_df = 0%nat) /\
  ((run call cv).2 = Raise empty_input_error -> (run call cv).1 = cv).
Proof.
  unfold call, plot_predicted_data, orbit_style_decorator.
  destruct (is_empty_dataframe training_actual_df
            || is_empty_dataframe predicted_df) eqn:Hempty.
  - rewrite run_raise. simpl. split; [|done]. split; [|done]. intros _.
    apply orb_true_iff in Hempty.
    by rewrite !is_empty_dataframe_true in Hempty.
  - match goal with |- context [run ?m cv] =>
      assert (raises_only (fun e => e <> empty_input_error) m) as Hm by raises_tac
    end.
    split.
    + split.
      * intros He. by apply (raise_inv _ _ _ _ Hm) in He.
      * rewrite <- !is_empty_dataframe_true. apply orb_false_iff in Hempty.
        destruct Hempty as [-> ->]. by intros [|].
    + intros He. by apply (raise_inv _ _ _ _ Hm) in He.
Qed.

(** With rows in both tables, timestamps that fail [is_ordered_datetime]
    end the call at the ordering check. *)
Lemma ordering_check_fires cv s :
  is_empty_dataframe training_actual_df = false ->
  is_empty_dataframe predicted_df = false ->
  columns predicted_df !! date_col = Some s ->
  is_ordered_datetime s = false ->
  run call cv = (cv, Raise ordering_error).
Proof.
  intros Htr Hpr Hs Hord.
  unfold plot_predicted_data, orbit_style_decorator.
  rewrite Htr, Hpr. simpl orb. cbv iota.
  rewrite run_bind, (run_getitem_Some _ _ _ _ Hs).
  by rewrite Hord.
Qed.

(** C4.  On a prediction table with rows whose timestamps are not strictly
    increasing, [plot_predicted_data], called with a training table that has
    rows, raises the ordering error and leaves the canvas as it was. *)
Theorem unordered_prediction_raises_ordering_error cv timestamps :
  index training_actual_df <> 0%nat ->
  index predicted_df <> 0%nat ->
  columns predicted_df !! date_col = Some timestamps ->
  ~ strictly_increasing timestamps ->
  run call cv = (cv, Raise ordering_error).
Proof.
  intros Htr Hpr Hdates Hord.
  apply is_ordered_datetime_false in Hord.
  rewrite <- is_empty_dataframe_true in Htr, Hpr.
  apply not_true_is_false in Htr, Hpr.
  by apply ordering_check_fires with timestamps.
Qed.

(** C2, as the code has it.  The ordering check of [plot_predicted_data]
    reads the prediction table only: the ordering error is raised exactly
    when both tables have rows and the timestamps of the prediction table
    are not strictly increasing, whatever the order of the training
    timestamps, and it is raised with nothing drawn. *)
Theorem ordering_checked_on_prediction_only cv :
  ((run call cv).2 = Raise ordering_error <->
   index training_actual_df <> 0%nat /\ index predicted_df <> 0%nat /\
   exists timestamps, columns predicted_df !! date_col = Some timestamps /\
                      ~ strictly_increasing timestamps) /\
  ((run call cv).2 = Raise ordering_error -> (run call cv).1 = cv).
Proof.
  assert ((run call cv).2 = Raise ordering_error ->
          is_empty_dataframe training_actual_df = false /\
          is_empty_dataframe predicted_df = false /\
          exists s, columns predicted_df !! date_col = Some s /\
                    is_ordered_datetime s = false)
    as Hinv.
  { change (wp call (fun r _ => r = Raise ordering_error ->
        is_empty_dataframe training_actual_df = false /\
        is_empty_dataframe predicted_df = false /\
        exists s, columns predicted_df !! date_col = Some s /\
                  is_ordered_datetime s = false) cv).
    unfold plot_predicted_data.
    do 2 wp_step; [done|].
    apply orb_false_iff in Heqb as [Htr Hpr].
    do 2 wp_step; [|done].
    wp_step.
    { wp_step. intros _. split; [done|]. split; [done|]. exists s. split; [done|].
      by destruct (is_ordered_datetime s). }
    match goal with |- wp ?m _ _ =>
      assert (raises_only (fun e => e <> ordering_error) m) as Hm by raises_tac
    end.
    intros He. by apply (raise_inv _ _ _ _ Hm) in He. }
  split; [split |].
  - intros (Htr & Hpr & s & Hs & Hord)%Hinv.
    apply not_true_iff_false in Htr, Hpr.
    rewrite is_empty_dataframe_true in Htr, Hpr.
    split; [done|]. split; [done|]. exists s. split; [done|].
    by apply is_ordered_datetime_false.
  - intros (Htr & Hpr & s & Hs & Hord).
    rewrite <- is_empty_dataframe_true in Htr, Hpr.
    apply not_true_is_false in Htr, Hpr.
    apply is_ordered_datetime_false in Hord.
    by rewrite (ordering_check_fires cv s).
  - intros (Htr & Hpr & s & Hs & Hord)%Hinv.
    by rewrite (ordering_check_fires cv s).
Qed.

Lemma default_pair_bad_length (pp : option (list Z)) :
  negb (Nat.eqb (length (default [5; 95] pp)) 2) = true <->
  exists l, pp = Some l /\ length l <> 2%nat.
Proof.
  rewrite negb_true_iff, Nat.eqb_neq. destruct pp as [l|]; simpl; split.
  - intros H. by exists l.
  - by intros (l' & [= <-] & H).
  - done.
  - by intros (l' & [=] & _).
Qed.

Lemma bad_percentiles_rejected cv s :
  index training_actual_df <> 0%nat -> index predicted_df <> 0%nat ->
  columns predicted_df !! date_col = Some s -> strictly_increasing s ->
  (exists l, prediction_percentiles = Some l /\ length l <> 2%nat) ->
  run call cv = (cv, Raise shape_error).
Proof.
  intros Htr Hpr Hs Hord Hbad.
  apply is_ordered_datetime_spec in Hord.
  apply default_pair_bad_length in Hbad.
  rewrite <- is_empty_dataframe_true in Htr, Hpr.
  apply not_true_is_false in Htr, Hpr.
  unfold plot_predicted_data, orbit_style_decorator.
  rewrite Htr, Hpr. simpl orb. cbv iota.
  rewrite run_bind, (run_getitem_Some _ _ _ _ Hs).
  rewrite Hord. simpl negb. cbv iota zeta. by rewrite Hbad.
Qed.

Lemma shape_error_inv cv :
  (run call cv).2 = Raise shape_error ->
  exists l, prediction_percentiles = Some l /\ length l <> 2%nat.
Proof.
  change (wp call (fun r _ => r = Raise shape_error ->
    exists l, prediction_percentiles = Some l /\ length l <> 2%nat) cv).
  unfold plot_predicted_data.
  do 2 wp_step; [done|].
  do 2 wp_step; [|done].
  wp_step; [by wp_step|].
  wp_step.
  { wp_step. intros _. by apply default_pair_bad_length. }
  match goal with |- wp ?m _ _ =>
    assert (raises_only (fun e => e <> shape_error) m) as Hm by raises_tac
  end.
  intros He. by apply (raise_inv _ _ _ _ Hm) in He.
Qed.

Lemma band_drawn cv :
  wp call (fun r cv' =>
    match r with
    | Raise _ => True
    | Return _ =>
        let p := default [5; 95] prediction_percentiles in
        bands cv' = bands cv ++
          match columns predicted_df !! date_col,
                columns predicted_df !! confid_col "prediction" (p !!! 0%nat),
                columns predicted_df !! confid_col "prediction" (p !!! 1%nat)
          with
          | Some x, Some lower, Some upper => [(x, lower, upper)]
          | _, _, _ => []
          end
    end) cv.
Proof.
  unfold plot_predicted_data.
  repeat wp_step; try done.
  all: cbv zeta; rewrite !bands_app, bands_finish; simpl; rewrite ?app_nil_r.
  all: lazymatch goal with
       | Hc : forallb _ _ = true |- _ => clear Hc
       | Hc : forallb _ _ = false |- _ =>
           simpl in Hc; rewrite andb_true_r, andb_false_iff in Hc;
           rewrite !has_column_false in Hc
       end.
  all: lazymatch goal with
       | Hd : columns predicted_df !! date_col = Some _ |- _ => rewrite Hd
       end.
  all: try (lazymatch goal with
            | Hc : _ = None \/ _ = None |- _ =>
                destruct Hc as [Hc | Hc]; rewrite Hc; try case_match;
                by rewrite app_nil_r
            end).
  all: repeat lazymatch goal with
         | Hl : columns predicted_df !! (_ !!! _) = Some _ |- _ =>
             change (columns predicted_df !! ([confid_col "prediction"
               (default [5; 95] prediction_percentiles !!! 0%nat);
               confid_col "prediction"
               (default [5; 95] prediction_percentiles !!! 1%nat)] !!! 0%nat))
               with (columns predicted_df !! confid_col "prediction"
               (default [5; 95] prediction_percentiles !!! 0%nat)) in Hl;
             change (columns predicted_df !! ([confid_col "prediction"
               (default [5; 95] prediction_percentiles !!! 0%nat);
               confid_col "prediction"
               (default [5; 95] prediction_percentiles !!! 1%nat)] !!! 1%nat))
               with (columns predicted_df !! confid_col "prediction"
               (default [5; 95] prediction_percentiles !!! 1%nat)) in Hl;
             rewrite Hl; clear Hl
         end.
  all: reflexivity.
Qed.


End PredictedData.

(** ** The component plot *)

Lemma run_for_each {A} (l : list A) (body : A -> plt unit) (draws : A -> canvas) :
  (forall x, x ∈ l -> forall cv, run (body x) cv = (cv ++ draws x, Return tt)) ->
  forall cv, run (for_each l body) cv = (cv ++ mjoin (draws <$> l), Return tt).
Proof.
  induction l as [|x l IH]; intros Hbody cv; simpl.
  - by rewrite run_ret, app_nil_r.
  - rewrite run_bind, Hbody by left.
    rewrite IH, <- app_assoc; [done|].
    intros y Hy. apply Hbody. by right.
Qed.

Lemma seqZ_one (m : Z) : seqZ m 1 = [m].
Proof. reflexivity. Qed.

Lemma flatten_grid_column (n : nat) :
  flatten (grid (Z.of_nat n) 1) = axes_column n.
Proof.
  unfold flatten, grid, axes_column. rewrite seqZ_one.
  induction (seqZ 0 (Z.of_nat n)) as [|r l IH]; [done|].
  simpl. f_equal. apply IH.
Qed.


Section Components.
Variable empty_grid_ok : bool.
Variables (predicted_df : DataFrame) (date_col : string).
Variables (prediction_percentiles : option (list Z)).
Variables (plot_components : option (list string)) (title : string).
Variables (figsize : option (Z * Z)) (path : option string).
Variables (fontsize : option Z) (is_visible : bool).

Local Abbreviation call :=
  (plot_predicted_components empty_grid_ok predicted_df date_col
     prediction_percentiles plot_components title figsize path fontsize
     is_visible).
Local Abbreviation kept := (present_components predicted_df plot_components).

Lemma components_bad_percentiles_rejected cv :
  is_Some (columns predicted_df !! date_col) ->
  (exists l, prediction_percentiles = Some l /\ length l <> 2%nat) ->
  run call cv = (cv, Raise shape_error).
Proof.
  intros [dates Hdates] Hbad. apply default_pair_bad_length in Hbad.
  unfold plot_predicted_components, orbit_style_decorator.
  rewrite run_bind, run_fmap, (run_getitem_Some _ _ _ _ Hdates).
  cbv zeta. by rewrite Hbad.
Qed.

Lemma components_shape_error_inv cv :
  (run call cv).2 = Raise shape_error ->
  exists l, prediction_percentiles = Some l /\ length l <> 2%nat.
Proof.
  change (wp call (fun r _ => r = Raise shape_error ->
    exists l, prediction_percentiles = Some l /\ length l <> 2%nat) cv).
  unfold plot_predicted_components.
  do 4 wp_step; [|done].
  wp_step.
  { wp_step. intros _. by apply default_pair_bad_length. }
  match goal with |- wp ?m _ _ =>
    assert (raises_only (fun e => e <> shape_error) m) as Hm by raises_tac
  end.
  intros He. by apply (raise_inv _ _ _ _ Hm) in He.
Qed.

Lemma components_canvas cv dates :
  columns predicted_df !! date_col = Some dates ->
  percentiles_ok prediction_percentiles ->
  kept <> [] \/ empty_grid_ok = true ->
  run call cv =
    (cv ++ [Subplots (Z.of_nat (length kept)) 1 (figsize_or (16, 8) figsize)]
        ++ mjoin (component_panel predicted_df
                    (default [5; 95] prediction_percentiles) dates
                    (fontsize_or 16 fontsize)
                  <$> zip (axes_column (length kept)) kept)
        ++ [Suptitle title (fontsize_or 16 fontsize); TightLayout]
        ++ finish_draws path is_visible,
     Return (AxesArray (axes_column (length kept)))).
Proof.
  intros Hdates Hpp Hgrid.
  assert (negb (Nat.eqb (length (default [5; 95] prediction_percentiles)) 2) = false)
    as Hshape.
  { apply not_true_is_false. intros (l & Hl & Hlen)%default_pair_bad_length.
    by apply Hpp in Hl. }
  unfold plot_predicted_components, orbit_style_decorator.
  rewrite run_bind, run_fmap, (run_getitem_Some _ _ _ _ Hdates).
  cbv zeta. rewrite Hshape. cbv iota.
  fold kept.
  rewrite run_bind, run_fmap, run_subplots_ok, flatten_grid_column.
  2:{ destruct Hgrid as [Hne | ->]; [left | right; lia].
      destruct kept; [done | simpl; lia]. }
  rewrite run_bind.
  rewrite (run_for_each _ _ (component_panel predicted_df
             (default [5; 95] prediction_percentiles) dates
             (fontsize_or 16 fontsize))).
  { run_steps. by rewrite <- !app_assoc. }
  intros [ax comp] Hin cv1.
  apply elem_of_zip_r in Hin.
  apply list_elem_of_filter in Hin as [Hcol _].
  apply Is_true_true, has_column_true in Hcol as [y Hy].
  unfold component_panel. rewrite Hy.
  rewrite run_bind, (run_getitem_Some _ _ _ _ Hy). run_steps.
  destruct (forallb _ _) eqn:Hband.
  - apply forallb_has_column_pair in Hband as [[lower Hlo] [upper Hup]].
    unfold when.
    rewrite run_bind, (run_getitem_Some _ _ _ _ Hlo). cbv beta iota.
    rewrite run_bind, (run_getitem_Some _ _ _ _ Hup). run_steps.
    change ([?a; ?b] !!! 0%nat) with a in Hlo.
    change ([?a; ?b] !!! 1%nat) with b in Hup.
    rewrite Hlo, Hup. by rewrite <- !app_assoc.
  - simpl in Hband. rewrite andb_true_r, andb_false_iff in Hband.
    rewrite !has_column_false in Hband.
    unfold when. run_steps.
    destruct Hband as [Hnone | Hnone]; rewrite Hnone; [|case_match];
      by rewrite <- !app_assoc.
Qed.

End Components.




Lemma present_components_have_columns df plot_components c :
  c ∈ present_components df plot_components -> has_column df c = true.
Proof.
  unfold present_components. intros [H _]%list_elem_of_filter.
  by apply Is_true_true.
Qed.

Lemma present_components_nil df plot_components :
  (forall c, c ∈ default [TREND; SEASONALITY; REGRESSION] plot_components ->
             columns df !! c = None) ->
  present_components df plot_components = [].
Proof.
  intros Hnone. unfold present_components.
  induction (default [TREND; SEASONALITY; REGRESSION] plot_components)
    as [|c l IH]; [done|].
  rewrite filter_cons. rewrite decide_False.
  - apply IH. intros c' Hc'. apply Hnone. by right.
  - intros Hc%Is_true_true. apply has_column_true in Hc as [s Hs].
    rewrite Hnone in Hs; [done | left].
Qed.

(** ** The backtest panel plot *)

Lemma ceil_div_spec (a b : Z) :
  0 < b -> (ceil_div a b - 1) * b < a <= ceil_div a b * b.
Proof.
  intros Hb. unfold ceil_div.
  pose proof (Z.div_mod (- a) b ltac:(lia)) as Hdm.
  pose proof (Z.mod_pos_bound (- a) b Hb) as Hm.
  nia.
Qed.

Lemma ceil_div_unique (a b q : Z) :
  0 < b -> (q - 1) * b < a <= q * b -> ceil_div a b = q.
Proof.
  intros Hb Hq. pose proof (ceil_div_spec a b Hb) as Hc. nia.
Qed.

Lemma elem_of_unique (s : Series) x : x ∈ unique s <-> x ∈ s.
Proof.
  induction s as [|y s IH]; [done|]. simpl.
  rewrite !elem_of_cons, list_elem_of_filter, IH.
  destruct (decide (x = y)); tauto.
Qed.

Lemma NoDup_unique (s : Series) : NoDup (unique s).
Proof.
  induction s as [|y s IH]; simpl; [constructor|].
  constructor.
  - rewrite list_elem_of_filter. by intros [? _].
  - by apply NoDup_filter.
Qed.

Lemma metric_values_lookup metrics (df : list BtRow) key :
  key ∈ split_key <$> df ->
  metric_values metrics df !! key = Some (split_metric metrics df key).
Proof.
  intros Hkey. unfold metric_values.
  apply elem_of_list_to_map_1.
  - rewrite <- list_fmap_compose.
    rewrite (list_fmap_ext _ id (unique (split_key <$> df))) by done.
    rewrite list_fmap_id. apply NoDup_unique.
  - apply list_elem_of_fmap. exists key. split; [done|].
    by apply elem_of_unique.
Qed.

Lemma metric_values_lookup_None metrics (df : list BtRow) key :
  key ∉ split_key <$> df -> metric_values metrics df !! key = None.
Proof.
  intros Hkey. unfold metric_values.
  apply not_elem_of_list_to_map_1.
  rewrite <- list_fmap_compose.
  rewrite (list_fmap_ext _ id (unique (split_key <$> df))) by done.
  rewrite list_fmap_id. by rewrite elem_of_unique.
Qed.

Lemma np_index_in_range (n : nat) (i : Z) :
  0 <= i < Z.of_nat n -> np_index n i = Some (Z.to_nat i).
Proof.
  intros Hi. unfold np_index.
  destruct (Z.leb_spec 0 i), (Z.ltb_spec i (Z.of_nat n)); simpl; (done || lia).
Qed.

Lemma grid_lookup (nrows ncols r c : Z) :
  0 <= r < nrows -> 0 <= c < ncols ->
  grid nrows ncols !! Z.to_nat r ≫= (.!! Z.to_nat c) = Some (r, c).
Proof.
  intros Hr Hc. unfold grid.
  rewrite list_lookup_fmap, lookup_seqZ_lt by lia. simpl.
  rewrite list_lookup_fmap, lookup_seqZ_lt by lia. simpl.
  f_equal. f_equal; lia.
Qed.

Lemma run_axes_getitem (nrows ncols r c : Z) cv :
  0 <= r < nrows -> 0 <= c < ncols ->
  run (axes_getitem (grid nrows ncols) r c) cv = (cv, Return (r, c)).
Proof.
  intros Hr Hc. unfold axes_getitem.
  assert (length (grid nrows ncols) = Z.to_nat nrows) as Hrows.
  { unfold grid. by rewrite length_fmap, length_seqZ. }
  rewrite np_index_in_range by lia. simpl.
  unfold grid at 1. rewrite list_lookup_fmap, lookup_seqZ_lt by lia. simpl.
  rewrite np_index_in_range by (rewrite length_fmap, length_seqZ; lia). simpl.
  rewrite list_lookup_fmap, lookup_seqZ_lt by lia. simpl.
  rewrite run_ret. do 3 f_equal; lia.
Qed.

Lemma elem_of_enumerate {A} (l : list A) idx x :
  (idx, x) ∈ enumerate l -> 0 <= idx < Z.of_nat (length l).
Proof.
  unfold enumerate. intros Hin%elem_of_zip_l.
  apply elem_of_seqZ in Hin. lia.
Qed.

Lemma row_major_cell_in_grid (ncol n idx : Z) :
  0 < ncol -> 0 <= idx < n ->
  0 <= idx `div` ncol < ceil_div n ncol /\ 0 <= idx `mod` ncol < ncol /\
  (idx `div` ncol) * ncol + idx `mod` ncol = idx.
Proof.
  intros Hncol Hidx.
  pose proof (ceil_div_spec n ncol Hncol) as Hceil.
  pose proof (Z.div_mod idx ncol ltac:(lia)) as Hdm.
  pose proof (Z.mod_pos_bound idx ncol Hncol) as Hm.
  split; [|split; [done | lia]].
  split; [apply Z.div_pos; lia|].
  apply Z.div_lt_upper_bound; [done | nia].
Qed.

Section Backtest.
Variable empty_grid_ok : bool.
Variables (bt_pred_df : list BtRow) (metrics : Series -> Series -> Q).
Variables (metrics_name : string) (split_key_list : option (list Z)).
Variables (ncol : Z) (figsize : option (Z * Z)) (include_vline : bool).
Variables (title : string) (fontsize : Z) (path : option string).
Variable is_visible : bool.

Local Abbreviation call :=
  (plot_bt_predictions empty_grid_ok bt_pred_df metrics metrics_name
     split_key_list ncol figsize include_vline title fontsize path is_visible).
Local Abbreviation selected := (selected_splits bt_pred_df split_key_list).
Local Abbreviation nrow := (ceil_div (Z.of_nat (length selected)) ncol).

Lemma bt_canvas cv :
  0 < ncol ->
  (forall k, k ∈ selected -> k ∈ split_key <$> bt_pred_df) ->
  selected <> [] \/ empty_grid_ok = true ->
  run call cv =
    (cv ++ [Subplots nrow ncol (default (16, 8) figsize)]
        ++ mjoin (bt_panel bt_pred_df metrics metrics_name ncol include_vline
                  <$> enumerate selected)
        ++ [Suptitle title fontsize; TightLayout]
        ++ finish_draws path is_visible,
     Return (AxesGrid (grid nrow ncol))).
Proof.
  intros Hncol Hkeys Hgrid.
  pose proof (ceil_div_spec (Z.of_nat (length selected)) ncol Hncol) as Hceil.
  unfold plot_bt_predictions, orbit_style_decorator. cbv zeta.
  fold selected.
  destruct (Z.eqb_spec ncol 0) as [|_]; [lia|].
  rewrite run_bind, run_subplots_ok.
  2:{ destruct Hgrid as [Hne | ->]; [left | right; split; [done|nia]].
      split; [|done]. destruct selected; [done | simpl in *; nia]. }
  rewrite run_bind.
  rewrite (run_for_each _ _ (bt_panel bt_pred_df metrics metrics_name ncol
                               include_vline)).
  { run_steps. by rewrite <- !app_assoc. }
  intros [idx key] Hin cv1.
  pose proof (elem_of_enumerate _ _ _ Hin) as Hidx.
  destruct (row_major_cell_in_grid ncol _ idx Hncol Hidx) as (Hrow & Hcol & _).
  assert (key ∈ split_key <$> bt_pred_df) as Hkey.
  { apply Hkeys. unfold enumerate in Hin. by apply elem_of_zip_r in Hin. }
  unfold bt_panel, row_major_cell.
  rewrite run_bind, run_axes_getitem by done. run_steps.
  rewrite run_axes_getitem by done. run_steps.
  rewrite run_axes_getitem by done. cbv beta iota.
  rewrite (metric_values_lookup _ _ _ Hkey). run_steps.
  destruct include_vline; unfold when.
  - rewrite run_bind, run_axes_getitem by done. run_steps.
    by rewrite <- !app_assoc.
  - run_steps. by rewrite <- !app_assoc, app_nil_r.
Qed.

End Backtest.

(** What the backtest panels show, read off the canvas. *)
Lemma bt_panels_titles df metrics name ncol vline (panels : list (Z * Z)) :
  panel_titles (mjoin (bt_panel df metrics name ncol vline <$> panels)) =
  (fun '(idx, key) =>
     (row_major_cell ncol idx, SplitTitle key name (split_metric metrics df key)))
  <$> panels.
Proof.
  unfold panel_titles. rewrite omap_mjoin, <- list_fmap_compose.
  induction panels as [|[idx key] panels IH]; [done|].
  rewrite !fmap_cons, mjoin_cons, IH. by destruct vline.
Qed.



(** ** The horizon bar plot *)

Lemma bar_positions_spec (n_bars0 : nat) (bar_width : Q) (n_models : nat) :
  bar_positions n_bars0 bar_width n_models =
  shifted_positions n_bars0 bar_width <$> seq 0 (S (n_models - 1)).
Proof.
  unfold bar_positions. induction (n_models - 1)%nat as [|m IH]; [done|].
  rewrite seq_S, foldl_app, IH. cbn [foldl Nat.add].
  assert ((shifted_positions n_bars0 bar_width <$> seq 0 (S m)) !!! m
          = shifted_positions n_bars0 bar_width m) as ->.
  { apply list_lookup_total_correct.
    by rewrite list_lookup_fmap, lookup_seq_lt by lia. }
  by rewrite (seq_S (S m)), fmap_app.
Qed.

Lemma shifted_positions_length n_bars0 bar_width k :
  length (shifted_positions n_bars0 bar_width k) = n_bars0.
Proof.
  unfold shifted_positions. induction k as [|k IH]; simpl.
  - by rewrite length_fmap, length_seqZ, Nat2Z.id.
  - by rewrite length_fmap.
Qed.

Lemma shifted_positions_lookup n_bars0 bar_width k (j : nat) x :
  shifted_positions n_bars0 bar_width k !! j = Some x ->
  (x == inject_Z (Z.of_nat j) + inject_Z (Z.of_nat k) * bar_width)%Q.
Proof.
  unfold shifted_positions. revert x. induction k as [|k IH]; intros x.
  - simpl. rewrite list_lookup_fmap.
    destruct (seqZ 0 (Z.of_nat n_bars0) !! j) as [z|] eqn:Hz; [|done].
    apply lookup_seqZ in Hz as [-> _]. intros [= <-]. simpl.
    rewrite Z.add_0_l. ring.
  - simpl. rewrite list_lookup_fmap.
    destruct (Nat.iter k _ _ !! j) as [y|] eqn:Hy; [|done].
    intros [= <-]. rewrite (IH y eq_refl).
    rewrite Nat2Z.inj_succ, <- Z.add_1_r, inject_Z_plus. ring.
Qed.

Lemma run_mapM_pure {A B} (f : A -> plt B) (g : A -> B) (l : list A) cv :
  (forall x, x ∈ l -> run (f x) cv = (cv, Return (g x))) ->
  run (mapM f l) cv = (cv, Return (g <$> l)).
Proof.
  induction l as [|x l IH]; intros Hf; [done|].
  change (mapM f (x :: l)) with (y ← f x; k ← mapM f l; mret (y :: k)).
  rewrite run_bind, Hf by left. cbv beta iota.
  rewrite run_bind, IH; [done|].
  intros y Hy. apply Hf. by right.
Qed.

Lemma run_list_getitem {A} (l : list A) i x cv :
  l !! i = Some x -> run (list_getitem l i) cv = (cv, Return x).
Proof. intros H. unfold list_getitem. by rewrite H. Qed.

Lemma imap_as_seq {A B} `{Inhabited A} (f : nat -> A -> B) (l : list A) :
  imap f l = (fun i => f i (l !!! i)) <$> seq 0 (length l).
Proof.
  apply list_eq. intros i. rewrite list_lookup_imap, list_lookup_fmap.
  destruct (l !! i) as [x|] eqn:Hx.
  - rewrite lookup_seq_lt by (by eapply lookup_lt_Some). simpl.
    by rewrite (list_lookup_total_correct _ _ _ Hx).
  - by rewrite lookup_seq_ge by (by apply lookup_ge_None).
Qed.

Lemma mjoin_singletons {A B} (g : A -> B) (l : list A) :
  mjoin ((fun x => [g x]) <$> l) = g <$> l.
Proof. induction l as [|x l IH]; [done|]. by rewrite !fmap_cons, mjoin_cons, IH. Qed.

Lemma unique_head (s : Series) : head (unique s) = head s.
Proof. by destruct s. Qed.

Section Barplot.
Variables (df : DataFrame) (model_col pred_horizon_col metric_col : string).
Variables (bar_width : Q) (path : option string) (figsize : option (Z * Z)).
Variables (fontsize : option Z) (is_visible : bool).

Local Abbreviation call :=
  (metric_horizon_barplot df model_col pred_horizon_col metric_col bar_width
     path figsize fontsize is_visible).

Lemma barplot_canvas cv model_s horizon_s metric_s :
  columns df !! model_col = Some model_s ->
  columns df !! pred_horizon_col = Some horizon_s ->
  columns df !! metric_col = Some metric_s ->
  model_s <> [] ->
  let models := unique model_s in
  let n_bars0 := length (model_bars model_s metric_s (default 0 (head models))) in
  run call cv =
    (cv ++ [RcFigsize (figsize_or (20, 6) figsize)]
        ++ imap (bar_call model_s metric_s bar_width) models
        ++ [Xlabel "predict-horizon";
            Xticks ((fun x => (inject_Z x + bar_width)%Q)
                      <$> seqZ 0 (Z.of_nat n_bars0))
                   (unique horizon_s);
            Legend;
            Title ("Model Comparison with " +:+ metric_col)
                  (fontsize_or 10 fontsize)]
        ++ finish_draws path is_visible,
     Return PyNone).
Proof.
  intros Hmodel Hhorizon Hmetric Hne. cbv zeta.
  assert (exists m0, head (unique model_s) = Some m0) as [m0 Hm0].
  { rewrite unique_head. destruct model_s; [done | by eexists]. }
  rewrite Hm0. cbn [default].
  unfold metric_horizon_barplot, orbit_style_decorator. cbv zeta.
  run_steps.
  rewrite run_fmap, (run_getitem_Some _ _ _ _ Hmodel). cbv beta iota.
  rewrite run_bind, run_fmap, (run_getitem_Some _ _ _ _ Hhorizon). cbv beta iota.
  assert (forall idx m, bar_call model_s metric_s bar_width idx m =
            Bar (shifted_positions (length (model_bars model_s metric_s m0))
                   bar_width idx)
                (model_bars model_s metric_s m)
                (Colorblind (length (unique model_s)) idx) bar_width m) as Hcall.
  { intros idx m. unfold bar_call. by rewrite Hm0. }
  remember (unique model_s) as models eqn:Hmodels.
  rewrite run_bind, (run_mapM_pure _ (model_bars model_s metric_s)).
  2:{ intros m _. rewrite run_bind, (run_getitem_Some _ _ _ _ Hmodel).
      cbv beta iota. by rewrite run_bind, (run_getitem_Some _ _ _ _ Hmetric). }
  cbv beta iota.
  rewrite run_bind, (run_list_getitem _ _ (model_bars model_s metric_s m0)).
  2:{ by rewrite list_lookup_fmap, <- head_lookup, Hm0. }
  cbv beta iota.
  rewrite run_bind.
  rewrite (run_for_each _ _
             (fun idx => [bar_call model_s metric_s bar_width idx (models !!! idx)])).
  { run_steps.
    rewrite (mjoin_singletons
               (fun idx => bar_call model_s metric_s bar_width idx (models !!! idx))).
    rewrite <- (imap_as_seq (bar_call model_s metric_s bar_width)).
    by rewrite <- !app_assoc. }
  intros idx Hidx%elem_of_seq cv1.
  assert (exists m, models !! idx = Some m) as [m Hm].
  { apply lookup_lt_is_Some. lia. }
  rewrite run_bind,
    (run_list_getitem _ _
       (shifted_positions (length (model_bars model_s metric_s m0)) bar_width idx)).
  2:{ rewrite bar_positions_spec, list_lookup_fmap, lookup_seq_lt by lia. done. }
  cbv beta iota.
  rewrite run_bind, (run_list_getitem _ _ (model_bars model_s metric_s m)).
  2:{ by rewrite list_lookup_fmap, Hm. }
  cbv beta iota.
  rewrite run_bind, (run_list_getitem _ _ (Colorblind (length models) idx)).
  2:{ unfold color_palette. by rewrite list_lookup_fmap, lookup_seq_lt by lia. }
  cbv beta iota.
  rewrite run_bind, (run_list_getitem _ _ m) by done.
  cbv beta iota. rewrite run_emit.
  by rewrite (list_lookup_total_correct _ _ _ Hm), Hcall.
Qed.

End Barplot.

(** Every row belongs to exactly one model. *)
Lemma length_model_bars (model_s metric_s : Series) m :
  length model_s = length metric_s ->
  length (model_bars model_s metric_s m) = rows_of_model model_s m.
Proof.
  unfold model_bars, rows_of_model. revert metric_s.
  induction model_s as [|x s IH]; intros [|v vs] Hlen; try done.
  rewrite fmap_cons, filter_cons. cbn [boolean_mask].
  injection Hlen as Hlen. specialize (IH vs Hlen).
  destruct (decide (x = m)) as [->|Hne].
  - rewrite bool_decide_eq_true_2 by done. simpl. by rewrite IH.
  - by rewrite bool_decide_eq_false_2 by done.
Qed.





(** * The claims about the prediction plot *)


Lemma unordered_prediction_raises_ordering_error_witness :
  run (plot_predicted_data false sample_training sample_predicted_unordered
         "ds" "y" "prediction" None "forecast" None false None None None false) []
  = ([], Raise ordering_error).
Proof.
  apply (unordered_prediction_raises_ordering_error false sample_training
           sample_predicted_unordered "ds" "y" "prediction" None "forecast" None
           false None None None false [] [2; 4; 3; 5]).
  - simpl. lia.
  - simpl. lia.
  - reflexivity.
  - intros Hinc. apply is_ordered_datetime_spec in Hinc. vm_compute in Hinc.
    discriminate Hinc.
Defined.

(** C2 fails as stated: a training table whose timestamps are not strictly
    increasing is not rejected; its observations are drawn in the order
    given. *)
Lemma unordered_training_is_drawn :
  columns sample_training_unordered !! "ds" = Some [2; 1; 3] /\
  ~ strictly_increasing [2; 1; 3] /\
  run (plot_predicted_data false sample_training_unordered sample_predicted
         "ds" "y" "prediction" None "forecast" None false None None None false) []
  = ([Subplots 1 1 (16, 8);
      Scatter (0, 0) [2; 1; 3] [12; 10; 11] ACTUAL_OBS "train response";
      Plot (0, 0) [2; 3; 4; 5] [12; 11; 13; 14] PREDICTION_LINE (Some "prediction");
      Axvline (0, 0) (Some 3) HOLDOUT_VERTICAL_LINE;
      FillBetween (0, 0) [2; 3; 4; 5] [10; 9; 10; 10] [14; 13; 16; 18]
        PREDICTION_INTERVAL;
      SetTitle (0, 0) (Text "forecast") (Some 16);
      AxLegend (0, 0);
      CloseFig],
     Return (Axes (0, 0))).
Proof.
  split; [reflexivity|]. split; [|by vm_compute].
  intros Hinc. apply is_ordered_datetime_spec in Hinc. vm_compute in Hinc.
  discriminate Hinc.
Qed.

(** C6, as the code has it.  Whenever [plot_predicted_data] returns and both
    bound columns of the percentile pair in force are columns of the
    prediction table, exactly one band is drawn; its lower edge is the column
    of the first percentile and its upper edge the column of the second, both
    as given, over the table's timestamps.  The bands on the canvas are
    therefore ordered exactly when those already there are and the first
    column is at or below the second, row by row. *)
Theorem band_edges_are_the_bound_columns
    (empty_grid_ok : bool) (training_actual_df predicted_df : DataFrame)
    (date_col actual_col pred_col : string)
    (prediction_percentiles : option (list Z)) (title : string)
    (test_actual_df : option DataFrame) (is_visible : bool)
    (figsize : option (Z * Z)) (path : option string) (fontsize : option Z)
    (line_plot : bool) (cv cv' : canvas) (h : handle) (lower upper : Series) :
  run (plot_predicted_data empty_grid_ok training_actual_df predicted_df
         date_col actual_col pred_col prediction_percentiles title
         test_actual_df is_visible figsize path fontsize line_plot) cv
  = (cv', Return h) ->
  columns predicted_df
    !! confid_col "prediction" (pair_in_force prediction_percentiles !!! 0%nat)
  = Some lower ->
  columns predicted_df
    !! confid_col "prediction" (pair_in_force prediction_percentiles !!! 1%nat)
  = Some upper ->
  exists timestamps,
    columns predicted_df !! date_col = Some timestamps /\
    bands cv' = bands cv ++ [(timestamps, lower, upper)] /\
    (Forall band_ordered (bands cv') <->
     Forall band_ordered (bands cv) /\ Forall2 Z.le lower upper).
Proof.
  intros Hrun Hlower Hupper. unfold pair_in_force in *.
  pose proof (wp_run _ _ _ _ _
    (band_drawn empty_grid_ok training_actual_df predicted_df date_col
       actual_col pred_col prediction_percentiles title test_actual_df
       is_visible figsize path fontsize line_plot cv) Hrun) as Hbands.
  cbv beta iota zeta in Hbands. rewrite Hlower, Hupper in Hbands.
  destruct (columns predicted_df !! date_col) as [timestamps|] eqn:Hdates.
  - exists timestamps. split; [done|]. split; [done|].
    rewrite Hbands, Forall_app, Forall_singleton. done.
  - exfalso. revert Hrun.
    unfold plot_predicted_data, orbit_style_decorator.
    destruct (_ || _); [by rewrite run_raise|].
    by rewrite run_bind, (run_getitem_None _ _ _ Hdates).
Qed.

Lemma band_edges_are_the_bound_columns_witness :
  exists timestamps,
    columns sample_predicted !! "ds" = Some timestamps /\
    bands (run (plot_predicted_data false sample_training sample_predicted
                  "ds" "y" "prediction" None "forecast" None false None None
                  None false) []).1
    = bands [] ++ [(timestamps, [10; 9; 10; 10], [14; 13; 16; 18])] /\
    (Forall band_ordered
       (bands (run (plot_predicted_data false sample_training sample_predicted
                      "ds" "y" "prediction" None "forecast" None false None
                      None None false) []).1) <->
     Forall band_ordered (bands []) /\
     Forall2 Z.le [10; 9; 10; 10] [14; 13; 16; 18]).
Proof.
  apply (band_edges_are_the_bound_columns false sample_training sample_predicted
           "ds" "y" "prediction" None "forecast" None false None None None false
           [] _ (Axes (0, 0))).
  - vm_compute. reflexivity.
  - vm_compute. reflexivity.
  - vm_compute. reflexivity.
Defined.

(** C6 fails as stated: called with the percentile pair (95, 5) on a table
    whose 5th percentiles lie below its 95th, the plot draws a band whose
    lower edge lies above its upper edge. *)
Lemma band_lower_edge_above_upper :
  exists b,
    b ∈ bands (run (plot_predicted_data false sample_training sample_predicted
                      "ds" "y" "prediction" (Some [95; 5]) "forecast" None
                      false None None None false) []).1 /\
    ~ band_ordered b.
Proof.
  exists ([2; 3; 4; 5], [14; 13; 16; 18], [10; 9; 10; 10]). split.
  - vm_compute. left.
  - unfold band_ordered. simpl. intros Hle. inversion Hle; lia.
Qed.

(** * The claim about the percentile pair *)

(** C5.  Once the checks that come first have passed (both tables of the
    prediction plot have rows and its prediction timestamps are strictly
    increasing; the component table has its date column), each of
    [plot_predicted_data] and [plot_predicted_components] raises the shape
    error exactly when a percentile pair is supplied whose length is not 2;
    a pair of length 2, or none, raises no shape error. *)
Theorem shape_error_iff_pair_length_not_two
    (empty_grid_ok : bool) (training_actual_df predicted_df : DataFrame)
    (date_col actual_col pred_col : string)
    (prediction_percentiles : option (list Z)) (title : string)
    (test_actual_df : option DataFrame) (is_visible : bool)
    (figsize : option (Z * Z)) (path : option string) (fontsize : option Z)
    (line_plot : bool) (components_df : DataFrame)
    (plot_components : option (list string)) (cv : canvas)
    (timestamps : Series) :
  index training_actual_df <> 0%nat ->
  index predicted_df <> 0%nat ->
  columns predicted_df !! date_col = Some timestamps ->
  strictly_increasing timestamps ->
  is_Some (columns components_df !! date_col) ->
  ((exists l, prediction_percentiles = Some l /\ length l <> 2%nat) <->
   run (plot_predicted_data empty_grid_ok training_actual_df predicted_df
          date_col actual_col pred_col prediction_percentiles title
          test_actual_df is_visible figsize path fontsize line_plot) cv
   = (cv, Raise shape_error)) /\
  ((exists l, prediction_percentiles = Some l /\ length l <> 2%nat) <->
   run (plot_predicted_components empty_grid_ok components_df date_col
          prediction_percentiles plot_components title figsize path fontsize
          is_visible) cv
   = (cv, Raise shape_error)).
Proof.
  intros Htr Hpr Hdates Hinc Hcomp. split; split.
  - by apply bad_percentiles_rejected with timestamps.
  - intros Hrun. eapply shape_error_inv. by rewrite Hrun.
  - by apply components_bad_percentiles_rejected.
  - intros Hrun. eapply components_shape_error_inv. by rewrite Hrun.
Qed.

Lemma shape_error_iff_pair_length_not_two_witness :
  ((exists l, Some [5; 50; 95] = Some l /\ length l <> 2%nat) <->
   run (plot_predicted_data false sample_training sample_predicted
          "ds" "y" "prediction" (Some [5; 50; 95]) "forecast" None false None
          None None false) []
   = ([], Raise shape_error)) /\
  ((exists l, Some [5; 50; 95] = Some l /\ length l <> 2%nat) <->
   run (plot_predicted_components false sample_components "ds"
          (Some [5; 50; 95]) None "components" None None None false) []
   = ([], Raise shape_error)).
Proof.
  apply (shape_error_iff_pair_length_not_two false sample_training
           sample_predicted "ds" "y" "prediction" (Some [5; 50; 95]) "forecast"
           None false None None None false sample_components None []
           [2; 3; 4; 5]).
  - simpl. lia.
  - simpl. lia.
  - reflexivity.
  - apply is_ordered_datetime_spec. reflexivity.
  - exists [1; 2; 3]. reflexivity.
Defined.

(** * The claims about the component plot *)



(** The request of the three default components against a table that holds
    a trend and a seasonality only: two panels, the trend above the
    seasonality. *)
Example trend_and_seasonality_panels :
  run (plot_predicted_components false sample_components "ds" None
         (Some ["trend"; "seasonality"; "regression"]) "components" None None
         None false) []
  = ([Subplots 2 1 (16, 8);
      Plot (0, 0) [1; 2; 3] [10; 11; 12] PREDICTION_INTERVAL None;
      SetTitle (0, 0) (Text "trend") (Some 16);
      Plot (1, 0) [1; 2; 3] [1; -1; 1] PREDICTION_INTERVAL None;
      SetTitle (1, 0) (Text "seasonality") (Some 16);
      Suptitle "components" 16; TightLayout; CloseFig],
     Return (AxesArray [(0, 0); (1, 0)])).
Proof. by vm_compute. Qed.



(** The same on a table without rows. *)
Example empty_table_draws_no_panel :
  run (plot_predicted_components true (frame 0 [("ds", []); ("prediction", [])])
         "ds" None None "components" None None None false) []
  = ([Subplots 0 1 (16, 8); Suptitle "components" 16; TightLayout; CloseFig],
     Return (AxesArray [])).
Proof. by vm_compute. Qed.

(** With a backend that refuses a grid without rows the same call ends in
    the backend's error, raised by [plt.subplots] before anything is drawn. *)
Lemma no_component_present_backend_refusal
    (predicted_df : DataFrame) (date_col : string)
    (prediction_percentiles : option (list Z))
    (plot_components : option (list string)) (title : string)
    (figsize : option (Z * Z)) (path : option string) (fontsize : option Z)
    (is_visible : bool) (cv : canvas) :
  is_Some (columns predicted_df !! date_col) ->
  percentiles_ok prediction_percentiles ->
  (forall c, c ∈ default [TREND; SEASONALITY; REGRESSION] plot_components ->
             columns predicted_df !! c = None) ->
  run (plot_predicted_components false predicted_df date_col
         prediction_percentiles plot_components title figsize path fontsize
         is_visible) cv
  = (cv, Raise BackendError).
Proof.
  intros [dates Hdates] Hpp Hnone.
  assert (negb (Nat.eqb (length (default [5; 95] prediction_percentiles)) 2) = false)
    as Hshape.
  { apply not_true_is_false. intros (l & Hl & Hlen)%default_pair_bad_length.
    by apply Hpp in Hl. }
  unfold plot_predicted_components, orbit_style_decorator.
  rewrite run_bind, run_fmap, (run_getitem_Some _ _ _ _ Hdates).
  cbv zeta. rewrite Hshape. cbv iota.
  fold (present_components predicted_df plot_components).
  rewrite (present_components_nil _ _ Hnone).
  by rewrite run_bind, run_fmap, run_subplots_rejected by (simpl; lia || done).
Qed.

(** * The claim about the backtest panel plot *)



(** Three splits on two columns: a grid of two rows and two columns, the
    panels on the cells (0,0), (0,1) and (1,0); nothing is painted on the
    cell (1,1). *)
Example three_splits_on_two_columns :
  let out := run (plot_bt_predictions false sample_backtest sample_metric "smape"
                    None 2 None false "backtest" 20 None false) [] in
  out.2 = Return (AxesGrid [[(0, 0); (0, 1)]; [(1, 0); (1, 1)]]) /\
  grids out.1 = [(2, 2)] /\
  panel_titles out.1 =
    [((0, 0), SplitTitle 0 "smape" 1); ((0, 1), SplitTitle 1 "smape" 1);
     ((1, 0), SplitTitle 2 "smape" 1)] /\
  (1, 1) ∉ painted_axes out.1.
Proof.
  vm_compute. repeat split.
  intros Hin. repeat (apply elem_of_cons in Hin as [[=] | Hin]).
  by apply elem_of_nil in Hin.
Qed.

(** * The claim about the horizon bar plot *)




(** Two models on three horizons: six bars, in two clusters of three, the
    second cluster one bar width to the right of the first. *)
Example two_models_three_horizons :
  bar_calls (run (metric_horizon_barplot sample_metrics "model" "pred_horizon"
                    "smape" (1 # 10) None None None false) []).1
  = [([0; 1; 2]%Q, [5; 6; 7], Colorblind 2 0, 1);
     ([1 # 10; 11 # 10; 21 # 10]%Q, [8; 9; 10], Colorblind 2 1, 2)].
Proof. by vm_compute. Qed.

(** * The claim about the returned handles *)







Lemma sample_backtest_input_valid :
  valid_backtest_input sample_backtest None 2 true.
Proof.
  split; [lia|]. split; [vm_compute; discriminate|]. split.
  - intros k Hk. vm_compute in Hk. vm_compute.
    repeat (apply elem_of_cons in Hk as [-> | Hk];
            [repeat (first [left | right])|]).
    by apply elem_of_nil in Hk.
  - intros _ k Hk. vm_compute in Hk.
    repeat (apply elem_of_cons in Hk as [-> | Hk]; [vm_compute; discriminate|]).
    by apply elem_of_nil in Hk.
Qed.





(** * Further properties of the prediction plot *)

Lemma raises_only_subplots_pos (P : exn -> Prop) g nrows ncols figsize :
  0 < nrows -> 0 < ncols -> raises_only P (subplots g nrows ncols figsize).
Proof.
  intros Hr Hc cv cv' e. rewrite run_subplots_ok by (left; lia). discriminate.
Qed.

Section PredictedDataMore.
Variable empty_grid_ok : bool.
Variables (training_actual_df predicted_df : DataFrame).
Variables (date_col actual_col pred_col : string).
Variables (prediction_percentiles : option (list Z)) (title : string).
Variables (test_actual_df : option DataFrame) (is_visible : bool).
Variables (figsize : option (Z * Z)) (path : option string).
Variables (fontsize : option Z) (line_plot : bool).

Local Abbreviation call :=
  (plot_predicted_data empty_grid_ok training_actual_df predicted_df date_col
    actual_col pred_col prediction_percentiles title test_actual_df is_visible
    figsize path fontsize line_plot).



(** A value column the call names is looked up only once the figure exists.
    On inputs that pass validation, a training table without the actual
    column ends the call with its [KeyError] after [plt.subplots]; a
    prediction table without the prediction column ends it after the
    training observations are drawn.  Either way the figure stays open: it
    is neither shown nor closed. *)
Theorem value_column_missed_after_figure cv pred_dates train_dates :
  index training_actual_df <> 0%nat -> index predicted_df <> 0%nat ->
  columns predicted_df !! date_col = Some pred_dates ->
  strictly_increasing pred_dates ->
  percentiles_ok prediction_percentiles ->
  columns training_actual_df !! date_col = Some train_dates ->
  (columns training_actual_df !! actual_col = None ->
   run call cv
   = (cv ++ [Subplots 1 1 (figsize_or (16, 8) figsize)],
      Raise (KeyError actual_col))) /\
  (forall train_actual,
     columns training_actual_df !! actual_col = Some train_actual ->
     columns predicted_df !! pred_col = None ->
     run call cv
     = (cv ++ [Subplots 1 1 (figsize_or (16, 8) figsize);
               if line_plot
               then Plot (0, 0) train_dates train_actual ACTUAL_OBS
                      (Some "train response")
               else Scatter (0, 0) train_dates train_actual ACTUAL_OBS
                      "train response"],
        Raise (KeyError pred_col))).
Proof.
  intros Htr Hpr Hpd Hord Hpp Htd.
  assert (is_empty_dataframe training_actual_df || is_empty_dataframe predicted_df
          = false) as Hempty.
  { apply orb_false_iff. rewrite <- !not_true_iff_false, !is_empty_dataframe_true.
    done. }
  assert (negb (is_ordered_datetime pred_dates) = false) as Hord'.
  { apply is_ordered_datetime_spec in Hord. by rewrite Hord. }
  assert (negb (Nat.eqb (length (default [5; 95] prediction_percentiles)) 2) = false)
    as Hshape.
  { apply not_true_is_false. intros (l & Hl & Hlen)%default_pair_bad_length.
    by apply Hpp in Hl. }
  split.
  - intros Hnone. apply surjective_pairing_eq.
    change (wp call (fun r cv' =>
      cv' = cv ++ [Subplots 1 1 (figsize_or (16, 8) figsize)] /\
      r = Raise (KeyError actual_col)) cv).
    unfold plot_predicted_data. by wp_valid.
  - intros train_actual Hta Hnone. apply surjective_pairing_eq.
    change (wp call (fun r cv' =>
      cv' = cv ++ [Subplots 1 1 (figsize_or (16, 8) figsize);
                   if line_plot
                   then Plot (0, 0) train_dates train_actual ACTUAL_OBS
                          (Some "train response")
                   else Scatter (0, 0) train_dates train_actual ACTUAL_OBS
                          "train response"] /\
      r = Raise (KeyError pred_col)) cv).
    unfold plot_predicted_data. wp_valid; by rewrite <- app_assoc.
Qed.

(** Whenever the prediction plot returns, it has drawn the dashed vertical
    line exactly when the last training timestamp lies before the last
    prediction timestamp, and then at the last training timestamp. *)
Theorem holdout_line_at_last_training_timestamp cv cv' h :
  run call cv = (cv', Return h) ->
  exists train_dates pred_dates train_last pred_last,
    columns training_actual_df !! date_col = Some train_dates /\
    columns predicted_df !! date_col = Some pred_dates /\
    last train_dates = Some train_last /\
    last pred_dates = Some pred_last /\
    vlines cv' =
      vlines cv ++ (if train_last <? pred_last
                    then [((0, 0), Some train_last)] else []).
Proof.
  intros Hrun.
  assert (wp call (fun r cv' =>
    match r with
    | Raise _ => True
    | Return _ =>
        exists train_dates pred_dates train_last pred_last,
          columns training_actual_df !! date_col = Some train_dates /\
          columns predicted_df !! date_col = Some pred_dates /\
          last train_dates = Some train_last /\
          last pred_dates = Some pred_last /\
          vlines cv' =
            vlines cv ++ (if train_last <? pred_last
                          then [((0, 0), Some train_last)] else [])
    end) cv) as Hwp.
  { unfold plot_predicted_data.
    repeat wp_step; try done.
    all: lazymatch goal with
         | Htd : columns training_actual_df !! date_col = Some ?td,
           Hpd : columns predicted_df !! date_col = Some ?pd,
           Htl : last (to_datetime ?td) = Some ?t,
           Hpl : last (to_datetime ?pd) = Some ?t0 |- _ =>
             exists td, pd, t, t0
         end.
    all: repeat (split; [done|]).
    all: rewrite ?vlines_app, ?vlines_finish; simpl; rewrite ?app_nil_r.
    all: lazymatch goal with
         | Hlt : (_ <? _) = _ |- _ => rewrite Hlt
         end.
    all: by rewrite ?app_nil_r. }
  exact (wp_run _ _ _ _ _ Hwp Hrun).
Qed.

(** Whenever the prediction plot returns, the series it has drawn carry the
    legend labels "train response" and "prediction" and, when test
    observations are given, a third label: "test response" in scatter mode,
    but "train response" again in line mode. *)
Theorem series_labels_of_prediction_plot cv cv' h :
  run call cv = (cv', Return h) ->
  series_labels cv' =
    series_labels cv ++ ["train response"; "prediction"]
    ++ match test_actual_df with
       | Some _ => [if line_plot then "train response" else "test response"]
       | None => []
       end.
Proof.
  intros Hrun.
  assert (wp call (fun r cv' =>
    match r with
    | Raise _ => True
    | Return _ =>
        series_labels cv' =
          series_labels cv ++ ["train response"; "prediction"]
          ++ match test_actual_df with
             | Some _ => [if line_plot then "train response" else "test response"]
             | None => []
             end
    end) cv) as Hwp.
  { unfold plot_predicted_data.
    repeat wp_step; try done.
    all: rewrite !series_labels_app, series_labels_finish; simpl.
    all: by rewrite ?app_nil_r, <- ?app_assoc. }
  exact (wp_run _ _ _ _ _ Hwp Hrun).
Qed.

End PredictedDataMore.


Lemma value_column_missed_after_figure_witness :
  (columns sample_training !! "obs" = None ->
   run (plot_predicted_data false sample_training sample_predicted "ds" "obs"
          "prediction" None "forecast" None false None None None false) []
   = ([] ++ [Subplots 1 1 (figsize_or (16, 8) None)], Raise (KeyError "obs"))) /\
  (forall train_actual,
     columns sample_training !! "obs" = Some train_actual ->
     columns sample_predicted !! "prediction" = None ->
     run (plot_predicted_data false sample_training sample_predicted "ds" "obs"
            "prediction" None "forecast" None false None None None false) []
     = ([] ++ [Subplots 1 1 (figsize_or (16, 8) None);
               if false
               then Plot (0, 0) [1; 2; 3] train_actual ACTUAL_OBS
                      (Some "train response")
               else Scatter (0, 0) [1; 2; 3] train_actual ACTUAL_OBS
                      "train response"],
        Raise (KeyError "prediction"))).
Proof.
  apply (value_column_missed_after_figure false sample_training sample_predicted
           "ds" "obs" "prediction" None "forecast" None false None None None
           false [] [2; 3; 4; 5] [1; 2; 3]).
  - simpl. lia.
  - simpl. lia.
  - reflexivity.
  - apply is_ordered_datetime_spec. reflexivity.
  - intros l Hl. discriminate Hl.
  - reflexivity.
Defined.

(** The prediction column missing from the sample: the training scatter is
    on the canvas when the [KeyError] is raised. *)
Example prediction_column_missed :
  run (plot_predicted_data false sample_training sample_predicted "ds" "y"
         "yhat" None "forecast" None false None None None false) []
  = ([Subplots 1 1 (16, 8);
      Scatter (0, 0) [1; 2; 3] [10; 12; 11] ACTUAL_OBS "train response"],
     Raise (KeyError "yhat")).
Proof. by vm_compute. Qed.

Lemma holdout_line_at_last_training_timestamp_witness :
  exists train_dates pred_dates train_last pred_last,
    columns sample_training !! "ds" = Some train_dates /\
    columns sample_predicted !! "ds" = Some pred_dates /\
    last train_dates = Some train_last /\
    last pred_dates = Some pred_last /\
    vlines (run (plot_predicted_data false sample_training sample_predicted
                   "ds" "y" "prediction" None "forecast" None false None None
                   None false) []).1
    = vlines [] ++ (if train_last <? pred_last
                    then [((0, 0), Some train_last)] else []).
Proof.
  apply (holdout_line_at_last_training_timestamp false sample_training
           sample_predicted "ds" "y" "prediction" None "forecast" None false
           None None None false [] _ (Axes (0, 0))).
  vm_compute. reflexivity.
Defined.

Lemma series_labels_of_prediction_plot_witness :
  series_labels (run (plot_predicted_data false sample_training sample_predicted
                        "ds" "y" "prediction" None "forecast" (Some sample_test)
                        false None None None true) []).1
  = series_labels [] ++ ["train response"; "prediction"]
    ++ match Some sample_test with
       | Some _ => [if true then "train response" else "test response"]
       | None => []
       end.
Proof.
  apply (series_labels_of_prediction_plot false sample_training sample_predicted
           "ds" "y" "prediction" None "forecast" (Some sample_test) false None
           None None true [] _ (Axes (0, 0))).
  vm_compute. reflexivity.
Defined.


(** * Further properties of the component plot *)

Lemma component_panels_bands df p dates fs (panels : list (axes * string)) :
  (forall panel, panel ∈ panels -> has_column df panel.2 = true) ->
  bands (mjoin (component_panel df p dates fs <$> panels)) =
  omap (component_band df p dates) panels.
Proof.
  intros Hcols. unfold bands. rewrite omap_mjoin, <- list_fmap_compose.
  induction panels as [|[ax c] panels IH]; [done|].
  rewrite fmap_cons, mjoin_cons, IH.
  2:{ intros panel Hin. apply Hcols. by right. }
  assert (has_column df c = true) as [y Hy]%has_column_true
    by (apply (Hcols (ax, c)); left).
  cbn [omap list_omap]. unfold component_band at 2. simpl.
  unfold component_panel. rewrite Hy.
  by repeat case_match.
Qed.

Section ComponentsMore.
Variable empty_grid_ok : bool.
Variables (predicted_df : DataFrame) (date_col : string).
Variables (prediction_percentiles : option (list Z)).
Variables (plot_components : option (list string)) (title : string).
Variables (figsize : option (Z * Z)) (path : option string).
Variables (fontsize : option Z) (is_visible : bool).

Local Abbreviation call :=
  (plot_predicted_components empty_grid_ok predicted_df date_col
     prediction_percentiles plot_components title figsize path fontsize
     is_visible).
Local Abbreviation kept := (present_components predicted_df plot_components).


(** A panel of the component plot carries a band exactly when both bound
    columns of its component exist: the bands drawn are, in panel order,
    those of the kept components that have both columns, each between its
    two columns as given. *)
Theorem component_bands_where_both_bounds_exist cv dates :
  columns predicted_df !! date_col = Some dates ->
  percentiles_ok prediction_percentiles ->
  kept <> [] \/ empty_grid_ok = true ->
  bands (run call cv).1 =
    bands cv
    ++ omap (component_band predicted_df (pair_in_force prediction_percentiles) dates)
            (zip (axes_column (length kept)) kept).
Proof.
  intros Hdates Hpp Hgrid.
  rewrite (components_canvas _ _ _ _ _ _ _ _ _ _ cv dates Hdates Hpp Hgrid).
  cbn [fst]. rewrite !bands_app, bands_finish, component_panels_bands.
  - simpl. by rewrite !app_nil_r.
  - intros [ax c] Hin%elem_of_zip_r.
    by apply (present_components_have_columns predicted_df plot_components).
Qed.

End ComponentsMore.

Lemma component_bands_where_both_bounds_exist_witness :
  bands (run (plot_predicted_components false sample_components_bounded "ds"
                None None "components" None None None false) []).1
  = bands []
    ++ omap (component_band sample_components_bounded (pair_in_force None)
               [1; 2; 3])
            (zip (axes_column (length (present_components
                                         sample_components_bounded None)))
                 (present_components sample_components_bounded None)).
Proof.
  apply (component_bands_where_both_bounds_exist false sample_components_bounded
           "ds" None None "components" None None None false [] [1; 2; 3]).
  - reflexivity.
  - intros l Hl. discriminate Hl.
  - left. vm_compute. discriminate.
Defined.

(** Bounds for the trend only: the trend panel has a band, the seasonality
    panel, whose upper bound is missing, has none. *)
Example band_on_the_trend_panel_only :
  bands (run (plot_predicted_components false sample_components_bounded "ds"
                None None "components" None None None false) []).1
  = [([1; 2; 3], [9; 10; 11], [11; 12; 13])].
Proof. by vm_compute. Qed.

(** * Further properties of the horizon bar plot *)

Section BarplotMore.
Variables (df : DataFrame) (model_col pred_horizon_col metric_col : string).
Variables (bar_width : Q) (path : option string) (figsize : option (Z * Z)).
Variables (fontsize : option Z) (is_visible : bool).

Local Abbreviation call :=
  (metric_horizon_barplot df model_col pred_horizon_col metric_col bar_width
     path figsize fontsize is_visible).
Local Abbreviation configured cv :=
  (cv ++ [RcFigsize (figsize_or (20, 6) figsize)]).

(** A column the bar plot names and does not find ends the call with that
    column's [KeyError]; the columns are looked up in the order model,
    horizon, metric, the last only once a model is found. *)
Theorem barplot_missing_column cv :
  (columns df !! model_col = None ->
   run call cv = (configured cv, Raise (KeyError model_col))) /\
  (is_Some (columns df !! model_col) ->
   columns df !! pred_horizon_col = None ->
   run call cv = (configured cv, Raise (KeyError pred_horizon_col))) /\
  (forall model_s,
     columns df !! model_col = Some model_s -> model_s <> [] ->
     is_Some (columns df !! pred_horizon_col) ->
     columns df !! metric_col = None ->
     run call cv = (configured cv, Raise (KeyError metric_col))).
Proof.
  split; [|split].
  - intros Hnone. unfold metric_horizon_barplot, orbit_style_decorator.
    cbv zeta. run_steps.
    by rewrite run_fmap, (run_getitem_None _ _ _ Hnone).
  - intros [model_s Hmodel] Hnone.
    unfold metric_horizon_barplot, orbit_style_decorator.
    cbv zeta. run_steps.
    rewrite run_fmap, (run_getitem_Some _ _ _ _ Hmodel). cbv beta iota.
    by rewrite run_bind, run_fmap, (run_getitem_None _ _ _ Hnone).
  - intros model_s Hmodel Hne [horizon_s Hhorizon] Hnone.
    unfold metric_horizon_barplot, orbit_style_decorator.
    cbv zeta. run_steps.
    rewrite run_fmap, (run_getitem_Some _ _ _ _ Hmodel). cbv beta iota.
    rewrite run_bind, run_fmap, (run_getitem_Some _ _ _ _ Hhorizon).
    cbv beta iota.
    destruct model_s as [|m model_s]; [done|].
    cbn [unique].
    match goal with
    | |- context [mapM ?f (?x :: ?l)] =>
        change (mapM f (x :: l)) with (y ← f x; k ← mapM f l; mret (y :: k))
    end.
    rewrite !run_bind, (run_getitem_Some _ _ _ _ Hmodel). cbv beta iota.
    by rewrite run_bind, (run_getitem_None _ _ _ Hnone).
Qed.

(** On a table without rows the bar plot raises an [IndexError], from the
    look at the bars of the first model, after the figure size is set and
    before anything is plotted; the metric column is not even looked up. *)
Theorem barplot_on_empty_table cv :
  columns df !! model_col = Some [] ->
  is_Some (columns df !! pred_horizon_col) ->
  run call cv = (configured cv, Raise IndexError).
Proof.
  intros Hmodel [horizon_s Hhorizon].
  unfold metric_horizon_barplot, orbit_style_decorator.
  cbv zeta. run_steps.
  rewrite run_fmap, (run_getitem_Some _ _ _ _ Hmodel). cbv beta iota.
  by rewrite run_bind, run_fmap, (run_getitem_Some _ _ _ _ Hhorizon).
Qed.


(** The ticks of the horizon axis.  On a table in which every model has one
    row per distinct horizon, the bar plot sets one tick per distinct
    horizon, labelled with the horizons in table order.  The tick of
    position [j] stands at [j + bar_width]: where the [j]-th bar of the
    second model stands, whatever the number of models. *)
Theorem horizon_ticks_under_second_model cv model_s horizon_s metric_s :
  columns df !! model_col = Some model_s ->
  columns df !! pred_horizon_col = Some horizon_s ->
  columns df !! metric_col = Some metric_s ->
  length model_s = length metric_s ->
  model_s <> [] ->
  (forall m, m ∈ model_s ->
     rows_of_model model_s m = length (unique horizon_s)) ->
  exists ticks,
    xticks (run call cv).1 = xticks cv ++ [(ticks, unique horizon_s)] /\
    length ticks = length (unique horizon_s) /\
    (forall (j : nat) x, ticks !! j = Some x ->
       (x == inject_Z (Z.of_nat j) + bar_width)%Q /\
       exists x',
         shifted_positions (length (unique horizon_s)) bar_width 1 !! j = Some x' /\
         (x == x')%Q).
Proof.
  intros Hmodel Hhorizon Hmetric Hlen Hne Hbal.
  assert (length (model_bars model_s metric_s (default 0 (head (unique model_s))))
          = length (unique horizon_s)) as Hbars0.
  { rewrite unique_head. destruct model_s as [|m0 model_s']; [done|]. simpl head.
    cbn [default]. rewrite length_model_bars by done. apply Hbal. left. }
  set (n := length (unique horizon_s)) in *.
  exists ((fun x => (inject_Z x + bar_width)%Q) <$> seqZ 0 (Z.of_nat n)).
  rewrite (barplot_canvas _ _ _ _ _ _ _ _ _ cv model_s horizon_s metric_s)
    by done.
  cbn [fst]. rewrite !xticks_app, xticks_finish.
  assert (xticks (imap (bar_call model_s metric_s bar_width) (unique model_s))
          = []) as ->.
  { unfold xticks. rewrite (omap_imap_None _ _); done. }
  rewrite Hbars0. split; [by rewrite app_nil_r|].
  split; [by rewrite length_fmap, length_seqZ, Nat2Z.id|].
  intros j x. rewrite list_lookup_fmap.
  destruct (seqZ 0 _ !! j) as [z|] eqn:Hz; [|done].
  apply lookup_seqZ in Hz as [-> Hj]. intros [= <-].
  rewrite Z.add_0_l. split; [reflexivity|].
  destruct (shifted_positions n bar_width 1 !! j) as [x'|] eqn:Hx'.
  - exists x'. split; [done|].
    apply shifted_positions_lookup in Hx'. rewrite Hx'.
    change (inject_Z (Z.of_nat 1)) with 1%Q. ring.
  - apply lookup_ge_None in Hx'. rewrite shifted_positions_length in Hx'. lia.
Qed.

End BarplotMore.

Lemma barplot_on_empty_table_witness :
  run (metric_horizon_barplot sample_metrics_empty "model" "pred_horizon"
         "smape" (1 # 10) None None None false) []
  = ([] ++ [RcFigsize (figsize_or (20, 6) None)], Raise IndexError).
Proof.
  apply (barplot_on_empty_table sample_metrics_empty "model" "pred_horizon"
           "smape" (1 # 10) None None None false []).
  - reflexivity.
  - exists [].  reflexivity.
Defined.


Lemma horizon_ticks_under_second_model_witness :
  exists ticks,
    xticks (run (metric_horizon_barplot sample_metrics "model" "pred_horizon"
                   "smape" (1 # 10) None None None false) []).1
    = xticks [] ++ [(ticks, unique [1; 2; 3; 1; 2; 3])] /\
    length ticks = length (unique [1; 2; 3; 1; 2; 3]) /\
    (forall (j : nat) x, ticks !! j = Some x ->
       (x == inject_Z (Z.of_nat j) + (1 # 10))%Q /\
       exists x',
         shifted_positions (length (unique [1; 2; 3; 1; 2; 3])) (1 # 10) 1 !! j
         = Some x' /\
         (x == x')%Q).
Proof.
  apply (horizon_ticks_under_second_model sample_metrics "model" "pred_horizon"
           "smape" (1 # 10) None None None false []
           [1; 1; 1; 2; 2; 2] [1; 2; 3; 1; 2; 3] [5; 6; 7; 8; 9; 10]).
  - reflexivity.
  - reflexivity.
  - reflexivity.
  - reflexivity.
  - discriminate.
  - intros m Hm. vm_compute in Hm.
    repeat (apply elem_of_cons in Hm as [-> | Hm]; [reflexivity|]).
    by apply elem_of_nil in Hm.
Defined.

(** With a single model the ticks still stand one bar width to the right of
    its bars. *)
Example single_model_ticks :
  let cv := (run (metric_horizon_barplot
                    (frame 2 [("model", [1; 1]); ("pred_horizon", [1; 2]);
                              ("smape", [5; 6])])
                    "model" "pred_horizon" "smape" (1 # 10) None None None
                    false) []).1 in
  (fun call => call.1.1.1) <$> bar_calls cv = [[0; 1]]%Q /\
  fst <$> xticks cv = [[0 + (1 # 10); 1 + (1 # 10)]]%Q.
Proof. by vm_compute. Qed.

(** * Further properties of the backtest panel plot *)

Lemma series_min_spec (s : Series) m :
  series_min s = Some m -> m ∈ s /\ forall x, x ∈ s -> m <= x.
Proof.
  destruct s as [|x s]; [done|]. simpl. intros [= <-].
  induction s as [|y s [IHin IHle]]; simpl.
  - split; [left|]. intros z ->%list_elem_of_singleton. lia.
  - split.
    + destruct (Z.min_spec y (foldr Z.min x s)) as [[_ ->] | [_ ->]].
      * right. left.
      * apply elem_of_cons in IHin as [-> | Hin]; [left | right; by right].
    + intros z [-> | [-> | Hz]%elem_of_cons]%elem_of_cons.
      * pose proof (IHle x ltac:(left)). lia.
      * lia.
      * pose proof (IHle z ltac:(by right)). lia.
Qed.

Lemma series_min_is_Some (s : Series) : s <> [] -> is_Some (series_min s).
Proof. destruct s; [done | by eexists]. Qed.

Lemma enumerate_app {A} (l1 l2 : list A) :
  enumerate (l1 ++ l2) =
  enumerate l1 ++ zip (seqZ (Z.of_nat (length l1)) (Z.of_nat (length l2))) l2.
Proof.
  unfold enumerate. rewrite length_app, Nat2Z.inj_add, seqZ_app by lia.
  rewrite zip_with_app; [done|]. by rewrite length_seqZ, Nat2Z.id.
Qed.

Lemma enumerate_middle {A} (l1 : list A) x l2 :
  exists rest,
    enumerate (l1 ++ x :: l2) = enumerate l1 ++ (Z.of_nat (length l1), x) :: rest.
Proof.
  rewrite enumerate_app. cbn [length].
  rewrite seqZ_cons by lia. by eexists.
Qed.

Lemma elem_of_enumerate_r {A} (l : list A) idx x :
  (idx, x) ∈ enumerate l -> x ∈ l.
Proof. unfold enumerate. apply elem_of_zip_r. Qed.

Lemma run_for_each_raise {A} (l1 : list A) x l2 (body : A -> plt unit)
    (draws : A -> canvas) d e :
  (forall y, y ∈ l1 -> forall cv, run (body y) cv = (cv ++ draws y, Return tt)) ->
  (forall cv, run (body x) cv = (cv ++ d, Raise e)) ->
  forall cv, run (for_each (l1 ++ x :: l2) body) cv
             = (cv ++ mjoin (draws <$> l1) ++ d, Raise e).
Proof.
  intros Hl1 Hx. induction l1 as [|y l1 IH]; intros cv; simpl.
  - by rewrite run_bind, Hx.
  - rewrite run_bind, Hl1 by left.
    rewrite IH, <- !app_assoc; [done|].
    intros z Hz. apply Hl1. by right.
Qed.


Lemma held_out_of_split k (df : list BtRow) :
  held_out (of_split k df) = of_split k (held_out df).
Proof.
  unfold held_out, of_split. induction df as [|r df IH]; [done|].
  rewrite !filter_cons.
  destruct (decide (split_key r = k)), (decide (training_data r = false));
    rewrite ?filter_cons; repeat case_decide; try done; by rewrite IH.
Qed.

Lemma of_split_absent k (df : list BtRow) :
  k ∉ split_key <$> df -> of_split k df = [].
Proof.
  unfold of_split. induction df as [|r df IH]; [done|].
  rewrite fmap_cons, not_elem_of_cons. intros [Hr Hdf].
  rewrite filter_cons. case_decide; [congruence | by apply IH].
Qed.

Lemma elem_of_held_out_of_split k (df : list BtRow) r :
  r ∈ held_out (of_split k df) <->
  r ∈ df /\ split_key r = k /\ training_data r = false.
Proof.
  unfold held_out, of_split. rewrite !list_elem_of_filter. tauto.
Qed.

Lemma bt_panels_vlines df metrics name ncol (vline : bool) (panels : list (Z * Z)) :
  vlines (mjoin (bt_panel df metrics name ncol vline <$> panels)) =
  if vline then bt_cutoff df ncol <$> panels else [].
Proof.
  unfold vlines. rewrite omap_mjoin, <- list_fmap_compose.
  induction panels as [|[idx key] panels IH].
  - by destruct vline.
  - rewrite !fmap_cons, mjoin_cons, IH. by destruct vline.
Qed.

Lemma bt_panels_lines df metrics name ncol vline (panels : list (Z * Z)) :
  line_plots (mjoin (bt_panel df metrics name ncol vline <$> panels)) =
  (fun '(idx, k) => (row_major_cell ncol idx, prediction <$> of_split k df))
  <$> panels.
Proof.
  unfold line_plots. rewrite omap_mjoin, <- list_fmap_compose.
  induction panels as [|[idx key] panels IH]; [done|].
  rewrite !fmap_cons, mjoin_cons, IH. by destruct vline.
Qed.

Lemma bt_panels_outputs df metrics name ncol vline (panels : list (Z * Z)) :
  outputs (mjoin (bt_panel df metrics name ncol vline <$> panels)) = [].
Proof.
  unfold outputs. rewrite omap_mjoin, <- list_fmap_compose.
  induction panels as [|[idx key] panels IH]; [done|].
  rewrite !fmap_cons, mjoin_cons, IH. by destruct vline.
Qed.

Section BacktestMore.
Variable empty_grid_ok : bool.
Variables (bt_pred_df : list BtRow) (metrics : Series -> Series -> Q).
Variables (metrics_name : string) (split_key_list : option (list Z)).
Variables (ncol : Z) (figsize : option (Z * Z)) (include_vline : bool).
Variables (title : string) (fontsize : Z) (path : option string).
Variable is_visible : bool.

Local Abbreviation call :=
  (plot_bt_predictions empty_grid_ok bt_pred_df metrics metrics_name
     split_key_list ncol figsize include_vline title fontsize path is_visible).
Local Abbreviation selected := (selected_splits bt_pred_df split_key_list).
Local Abbreviation nrow := (ceil_div (Z.of_nat (length selected)) ncol).

Lemma bt_canvas_absent_key cv pre key post :
  0 < ncol ->
  split_key_list = Some (pre ++ key :: post) ->
  (forall k, k ∈ pre -> k ∈ split_key <$> bt_pred_df) ->
  key ∉ split_key <$> bt_pred_df ->
  run call cv =
    (cv ++ [Subplots nrow ncol (default (16, 8) figsize)]
        ++ mjoin (bt_panel bt_pred_df metrics metrics_name ncol include_vline
                  <$> enumerate pre)
        ++ bt_panel_untitled bt_pred_df ncol (Z.of_nat (length pre), key),
     Raise (KeyError (pretty key))).
Proof.
  intros Hncol Hlist Hpre Hkey.
  assert (selected = pre ++ key :: post) as Hsel
    by (unfold selected_splits; by rewrite Hlist).
  pose proof (ceil_div_spec (Z.of_nat (length selected)) ncol Hncol) as Hceil.
  assert (Z.of_nat (length pre) < Z.of_nat (length selected)) as Hlen.
  { rewrite Hsel, length_app. simpl. lia. }
  unfold plot_bt_predictions, orbit_style_decorator. cbv zeta.
  fold selected.
  destruct (Z.eqb_spec ncol 0) as [|_]; [lia|].
  rewrite run_bind, run_subplots_ok by (left; split; [nia | done]).
  rewrite run_bind.
  destruct (enumerate_middle pre key post) as [rest Hrest].
  rewrite (eq_trans (f_equal enumerate Hsel) Hrest).
  rewrite (run_for_each_raise _ _ _ _
             (bt_panel bt_pred_df metrics metrics_name ncol include_vline)
             (bt_panel_untitled bt_pred_df ncol (Z.of_nat (length pre), key))
             (KeyError (pretty key))).
  { by rewrite <- !app_assoc. }
  - intros [idx k] Hin cv1.
    pose proof (elem_of_enumerate _ _ _ Hin) as Hidx.
    destruct (row_major_cell_in_grid ncol (Z.of_nat (length selected)) idx Hncol
                ltac:(lia)) as (Hrow & Hcol & _).
    assert (k ∈ split_key <$> bt_pred_df) as Hk.
    { apply Hpre. by apply elem_of_enumerate_r in Hin. }
    unfold bt_panel, row_major_cell.
    rewrite run_bind, run_axes_getitem by done. run_steps.
    rewrite run_axes_getitem by done. run_steps.
    rewrite run_axes_getitem by done. cbv beta iota.
    rewrite (metric_values_lookup _ _ _ Hk). run_steps.
    destruct include_vline; unfold when.
    + rewrite run_bind, run_axes_getitem by done. run_steps.
      by rewrite <- !app_assoc.
    + run_steps. by rewrite <- !app_assoc, app_nil_r.
  - intros cv1.
    destruct (row_major_cell_in_grid ncol (Z.of_nat (length selected))
                (Z.of_nat (length pre)) Hncol ltac:(lia)) as (Hrow & Hcol & _).
    unfold bt_panel_untitled, row_major_cell.
    rewrite run_bind, run_axes_getitem by done. run_steps.
    rewrite run_axes_getitem by done. run_steps.
    rewrite run_axes_getitem by done. cbv beta iota.
    rewrite (metric_values_lookup_None _ _ _ Hkey).
    rewrite run_bind, run_raise. by rewrite <- !app_assoc.
Qed.

(** A selected key that is no split of the table ends the call with that
    key's [KeyError], raised when the panel's title looks up the metric.  By
    then the splits listed before it have their panels, titled; the cell of
    the absent key is painted, with the empty series of a split without
    rows, and has no title; the figure is neither saved, shown nor closed. *)
Theorem absent_split_key_leaves_panel_untitled cv pre key post :
  0 < ncol ->
  split_key_list = Some (pre ++ key :: post) ->
  (forall k, k ∈ pre -> k ∈ split_key <$> bt_pred_df) ->
  key ∉ split_key <$> bt_pred_df ->
  exists cv',
    run call cv = (cv', Raise (KeyError (pretty key))) /\
    panel_titles cv' =
      panel_titles cv
      ++ (bt_title bt_pred_df metrics metrics_name ncol <$> enumerate pre) /\
    line_plots cv' =
      line_plots cv
      ++ ((fun '(idx, k) =>
             (row_major_cell ncol idx, prediction <$> of_split k bt_pred_df))
          <$> enumerate pre)
      ++ [(row_major_cell ncol (Z.of_nat (length pre)), [])] /\
    outputs cv' = outputs cv.
Proof.
  intros Hncol Hlist Hpre Hkey.
  eexists. split; [by apply (bt_canvas_absent_key cv pre key post)|].
  pose proof (of_split_absent _ _ Hkey) as Hnone.
  rewrite !panel_titles_app, !line_plots_app, !outputs_app.
  rewrite bt_panels_titles, bt_panels_outputs.
  unfold bt_panel_untitled. rewrite Hnone.
  split; [|split].
  - cbn [panel_titles omap list_omap panel_title_of]. rewrite !app_nil_r.
    f_equal. apply list_fmap_ext. by intros ? [idx k].
  - rewrite bt_panels_lines. simpl. by rewrite ?app_nil_r.
  - simpl. by rewrite !app_nil_r.
Qed.


(** The cutoff lines.  On inputs the backtest plot is meant for, it draws
    no vertical line unless asked to, and when asked one per panel, in panel
    order, on the panel's cell; the line stands at the timestamp of a
    held-out row of the split, and no held-out row of the split is
    earlier. *)
Theorem cutoff_line_at_first_held_out_row cv :
  valid_backtest_input bt_pred_df split_key_list ncol include_vline ->
  vlines (run call cv).1 =
    vlines cv ++ (if include_vline
                  then bt_cutoff bt_pred_df ncol <$> enumerate selected
                  else []) /\
  (include_vline = true ->
   forall idx key, (idx, key) ∈ enumerate selected ->
     exists d,
       (bt_cutoff bt_pred_df ncol (idx, key)).2 = Some d /\
       (exists r, r ∈ bt_pred_df /\ split_key r = key /\
                  training_data r = false /\ date r = d) /\
       (forall r, r ∈ bt_pred_df -> split_key r = key ->
                  training_data r = false -> d <= date r)).
Proof.
  intros (Hncol & Hne & Hkeys & Hheld). split.
  - rewrite bt_canvas by (done || by left). cbn [fst].
    rewrite !vlines_app, vlines_finish, bt_panels_vlines. simpl.
    by rewrite app_nil_r.
  - intros Hvline idx key Hin.
    pose proof (Hheld Hvline key (elem_of_enumerate_r _ _ _ Hin)) as Hrows.
    unfold bt_cutoff. cbn [fst snd].
    destruct (series_min_is_Some (date <$> held_out (of_split key bt_pred_df)))
      as [d Hd].
    { by destruct (held_out (of_split key bt_pred_df)). }
    exists d. split; [done|].
    apply series_min_spec in Hd as [Hd Hmin]. split.
    + apply list_elem_of_fmap in Hd as (r & -> & Hr).
      apply elem_of_held_out_of_split in Hr as (? & ? & ?). by exists r.
    + intros r Hr Hk Ht. apply Hmin, list_elem_of_fmap. exists r.
      split; [done|]. by apply elem_of_held_out_of_split.
Qed.

End BacktestMore.

(** The metric in a panel's title is computed from the held-out rows of its
    split alone: two tables with the same held-out rows give a split of
    both the same metric value, whatever their training rows. *)
Theorem split_metric_ignores_training_rows metrics (df df' : list BtRow) key :
  held_out df = held_out df' ->
  key ∈ split_key <$> df -> key ∈ split_key <$> df' ->
  metric_values metrics df !! key = metric_values metrics df' !! key.
Proof.
  intros Hheld Hk Hk'.
  rewrite !metric_values_lookup by done.
  unfold split_metric. by rewrite !held_out_of_split, Hheld.
Qed.

Lemma absent_split_key_leaves_panel_untitled_witness :
  exists cv',
    run (plot_bt_predictions false sample_backtest sample_metric "count"
           (Some ([0; 1] ++ 7 :: [2])) 2 None false "backtest" 20 None false) []
    = (cv', Raise (KeyError (pretty 7))) /\
    panel_titles cv' =
      panel_titles []
      ++ (bt_title sample_backtest sample_metric "count" 2 <$> enumerate [0; 1]) /\
    line_plots cv' =
      line_plots []
      ++ ((fun '(idx, k) =>
             (row_major_cell 2 idx, prediction <$> of_split k sample_backtest))
          <$> enumerate [0; 1])
      ++ [(row_major_cell 2 (Z.of_nat (length [0; 1])), [])] /\
    outputs cv' = outputs [].
Proof.
  apply (absent_split_key_leaves_panel_untitled false sample_backtest
           sample_metric "count" (Some ([0; 1] ++ 7 :: [2])) 2 None false
           "backtest" 20 None false [] [0; 1] 7 [2]).
  - lia.
  - reflexivity.
  - intros k Hk. vm_compute.
    repeat (apply elem_of_cons in Hk as [-> | Hk];
            [repeat (first [left | right])|]).
    by apply elem_of_nil in Hk.
  - apply (bool_decide_unpack _). reflexivity.
Defined.


Lemma cutoff_line_at_first_held_out_row_witness :
  vlines (run (plot_bt_predictions false sample_backtest sample_metric "count"
                 None 2 None true "backtest" 20 None false) []).1 =
    vlines [] ++ (if true
                  then bt_cutoff sample_backtest 2
                       <$> enumerate (selected_splits sample_backtest None)
                  else []) /\
  (true = true ->
   forall idx key,
     (idx, key) ∈ enumerate (selected_splits sample_backtest None) ->
     exists d,
       (bt_cutoff sample_backtest 2 (idx, key)).2 = Some d /\
       (exists r, r ∈ sample_backtest /\ split_key r = key /\
                  training_data r = false /\ date r = d) /\
       (forall r, r ∈ sample_backtest -> split_key r = key ->
                  training_data r = false -> d <= date r)).
Proof.
  apply (cutoff_line_at_first_held_out_row false sample_backtest sample_metric
           "count" None 2 None true "backtest" 20 None false []).
  apply sample_backtest_input_valid.
Defined.

Lemma split_metric_ignores_training_rows_witness :
  metric_values sample_metric sample_backtest !! 1
  = metric_values sample_metric sample_backtest_retrained !! 1.
Proof.
  apply (split_metric_ignores_training_rows sample_metric sample_backtest
           sample_backtest_retrained 1).
  - reflexivity.
  - apply (bool_decide_unpack _). reflexivity.
  - apply (bool_decide_unpack _). reflexivity.
Defined.

(** A key that is no split among the selected ones: the two panels before it
    are titled, its own panel is painted and left without a title. *)
Example absent_key_7 :
  let r := run (plot_bt_predictions false sample_backtest sample_metric "count"
                  (Some [0; 1; 7; 2]) 2 None false "backtest" 20 None false) [] in
  r.2 = Raise (KeyError "7") /\
  fst <$> panel_titles r.1 = [(0, 0); (0, 1)] /\
  painted_axes r.1 = [(0, 0); (0, 0); (0, 0); (0, 1); (0, 1); (0, 1); (1, 0); (1, 0)].
Proof. by vm_compute. Qed.

(** * The figure on the way out *)

(** Each of the four plot functions saves, shows or closes the figure only
    in its last statements.  A call that returns has saved the figure if a
    path was given and then shown or closed it, once; a call that raises,
    from its validation or from a lookup after the figure was created, has
    done none of the three: the figure it may have created stays open. *)
Theorem figure_released_only_on_return :
  (forall g training_actual_df predicted_df date_col actual_col pred_col
          prediction_percentiles title test_actual_df is_visible figsize path
          fontsize line_plot cv,
     released_on_return
       (plot_predicted_data g training_actual_df predicted_df date_col
          actual_col pred_col prediction_percentiles title test_actual_df
          is_visible figsize path fontsize line_plot)
       path is_visible cv) /\
  (forall g predicted_df date_col prediction_percentiles plot_components title
          figsize path fontsize is_visible cv,
     released_on_return
       (plot_predicted_components g predicted_df date_col
          prediction_percentiles plot_components title figsize path fontsize
          is_visible)
       path is_visible cv) /\
  (forall df model_col pred_horizon_col metric_col bar_width path figsize
          fontsize is_visible cv,
     released_on_return
       (metric_horizon_barplot df model_col pred_horizon_col metric_col
          bar_width path figsize fontsize is_visible)
       path is_visible cv) /\
  (forall g bt_pred_df metrics metrics_name split_key_list ncol figsize
          include_vline title fontsize path is_visible cv,
     released_on_return
       (plot_bt_predictions g bt_pred_df metrics metrics_name split_key_list
          ncol figsize include_vline title fontsize path is_visible)
       path is_visible cv).
Proof.
  split; [|split; [|split]]; intros.
  - match goal with |- released_on_return ?m _ _ _ =>
      change (wp m (fun r cv' =>
                outputs cv' = outputs cv ++ match r with
                                            | Return _ => finish_draws path is_visible
                                            | Raise _ => []
                                            end) cv)
    end.
    unfold plot_predicted_data. repeat wp_step; outputs_tac.
  - match goal with |- released_on_return ?m _ _ _ =>
      change (wp m (fun r cv' =>
                outputs cv' = outputs cv ++ match r with
                                            | Return _ => finish_draws path is_visible
                                            | Raise _ => []
                                            end) cv)
    end.
    unfold plot_predicted_components. repeat wp_step; try outputs_tac.
    apply (wp_for_each _ _ (fun cv1 => outputs cv1 = outputs cv)).
    + outputs_tac.
    + intros [ax comp] cv1 _ Hinv. repeat wp_step; outputs_tac.
    + intros cv1 Hinv. repeat wp_step; outputs_tac.
  - match goal with |- released_on_return ?m _ _ _ =>
      change (wp m (fun r cv' =>
                outputs cv' = outputs cv ++ match r with
                                            | Return _ => finish_draws path is_visible
                                            | Raise _ => []
                                            end) cv)
    end.
    unfold metric_horizon_barplot. repeat wp_step; try outputs_tac.
    apply (wp_mapM _ _ (fun cv1 => outputs cv1 = outputs cv)).
    + outputs_tac.
    + intros m cv1 _ Hinv. repeat wp_step; outputs_tac.
    + intros bars cv1 Hinv. repeat wp_more; try outputs_tac.
      apply (wp_for_each _ _ (fun cv1 => outputs cv1 = outputs cv)).
      * done.
      * intros idx cv2 _ Hinv2. repeat wp_more; outputs_tac.
      * intros cv2 Hinv2. repeat wp_more; outputs_tac.
  - match goal with |- released_on_return ?m _ _ _ =>
      change (wp m (fun r cv' =>
                outputs cv' = outputs cv ++ match r with
                                            | Return _ => finish_draws path is_visible
                                            | Raise _ => []
                                            end) cv)
    end.
    unfold plot_bt_predictions. repeat wp_step; try outputs_tac.
    apply (wp_for_each _ _ (fun cv1 => outputs cv1 = outputs cv)).
    + outputs_tac.
    + intros [idx key] cv1 _ Hinv. repeat wp_more; outputs_tac.
    + intros cv1 Hinv. repeat wp_more; outputs_tac.
Qed.

